(** * mahi-fes: wire codec and Stimulator facade

    A shallow embedding of the functional-electrical-stimulation driver:
    the checksum / framing helpers of the Communication utility
    ([checksum], [print_as_hex], [int_to_twobytes], [write_message]) and the
    [Stimulator] facade ([enable], [disable], [begin], [update],
    [create_scheduler], [add_events], ...).

    Integers of the C++ code are modelled in [Z]; a value stored into an
    [unsigned char] goes through [to_uchar].  Vectors and byte buffers are
    lists, indexed with stdpp's lookup and insert; an access outside the
    vector is undefined behaviour in C++ and is reported as [Undef]. *)

From Stdlib Require Import ZArith String Ascii Lia.
From stdpp Require Import base option list strings.

Local Open Scope Z_scope.

(** ** Communication utility: pure helpers *)

Module Codec.

(** Conversion of an [int] to [unsigned char]. *)
Definition to_uchar (z : Z) : Z := z mod 256.

(** [int checksum(unsigned char myarray[], int array_size)]: the loop
    [for (i = 0; i < array_size - 1; i++) csum += myarray[i];] followed by
    [csum = ((0x00FF & csum) + (csum >> 8)) ^ 0xFF]. *)
Definition checksum (myarray : list Z) (array_size : Z) : Z :=
  let csum := fold_left Z.add (take (Z.to_nat (array_size - 1)) myarray) 0 in
  Z.lxor (Z.land 255 csum + Z.shiftr csum 8) 255.

(** The statement [message_[message_size_ - 1] = (unsigned char)checksum(...)]
    of [write_message], on a buffer that holds at least [message_size_]
    bytes. *)
Definition store_checksum (message_ : list Z) (message_size_ : Z) : list Z :=
  <[Z.to_nat (message_size_ - 1) := to_uchar (checksum message_ message_size_)]> message_.

Definition hex_digit (d : Z) : string :=
  match d with
  | 0 => "0" | 1 => "1" | 2 => "2" | 3 => "3" | 4 => "4" | 5 => "5"
  | 6 => "6" | 7 => "7" | 8 => "8" | 9 => "9" | 10 => "A" | 11 => "B"
  | 12 => "C" | 13 => "D" | 14 => "E" | _ => "F"
  end%string.

(** [sprintf(char_buff, "0x%02X", (unsigned int)num)] for an
    [unsigned char num]. *)
Definition print_as_hex (num : Z) : string :=
  ("0x" ++ hex_digit (num / 16) ++ hex_digit (num mod 16))%string.

(** [std::vector<unsigned char> int_to_twobytes(int input_int)]: C++ [/] and
    [%] on [int] truncate towards zero ([Z.quot], [Z.rem]); [push_back]
    converts each to [unsigned char]. *)
Definition int_to_twobytes (input_int : Z) : list Z :=
  let byte_size := 256 in
  let char_vec_out := [] in
  let char_vec_out := char_vec_out ++ [to_uchar (Z.quot input_int byte_size)] in
  let char_vec_out := char_vec_out ++ [to_uchar (Z.rem input_int byte_size)] in
  char_vec_out.

Definition is_byte (b : Z) : Prop := 0 <= b < 256.

End Codec.

(** ** Data of the driver *)

(** A Win32 [HANDLE], as an integer; [INVALID_HANDLE_VALUE] is [(HANDLE)-1]. *)
Definition HANDLE := Z.
Definition INVALID_HANDLE_VALUE : HANDLE := -1.

(** [mahi::util::Time], as a number of microseconds. *)
Definition Time := Z.

(** The [double frequency_] argument of [create_scheduler], abstracted to
    the two values the function derives from it with floating-point
    arithmetic: the test [frequency_ > 0] and the conversion
    [(unsigned int)(1.0 / frequency_ * 1000)]. *)
Record Frequency := {
  freq_positive : bool;
  freq_period_ms : Z
}.

(** Modelled from the spec: Channel.hpp and Channel.cpp are not among the
    sources.  A channel holds a name, the port/channel byte, the two limits,
    the interphase delay, the aspect ratio and the anode/cathode byte; its
    getters and setters are plain accessors and mutators. *)
Record Channel := {
  channel_name : string;
  board_channel : Z;
  max_amplitude : Z;
  max_pulse_width : Z;
  ip_delay : Z;
  aspect : Z;
  an_ca : Z
}.

Definition get_channel_name (c : Channel) : string := channel_name c.
Definition get_max_amplitude (c : Channel) : Z := max_amplitude c.
Definition get_max_pulse_width (c : Channel) : Z := max_pulse_width c.

Definition set_max_amplitude (max_amp_ : Z) (c : Channel) : Channel :=
  {| channel_name := channel_name c; board_channel := board_channel c;
     max_amplitude := max_amp_; max_pulse_width := max_pulse_width c;
     ip_delay := ip_delay c; aspect := aspect c; an_ca := an_ca c |}.

Definition set_max_pulse_width (max_pw_ : Z) (c : Channel) : Channel :=
  {| channel_name := channel_name c; board_channel := board_channel c;
     max_amplitude := max_amplitude c; max_pulse_width := max_pw_;
     ip_delay := ip_delay c; aspect := aspect c; an_ca := an_ca c |}.

(** Modelled from the spec: Event.hpp is not among the sources.  An event is
    bound to one channel and holds the device-assigned id, the staged
    amplitude and pulse width and the event-type tag. *)
Record Event := {
  ev_channel : Channel;
  ev_id : Z;
  ev_amplitude : Z;
  ev_pulse_width : Z;
  ev_type : Z
}.

(** The private members of [class Scheduler] (Scheduler.hpp). *)
Record Scheduler := {
  m_id : Z;
  m_events : list Event;
  m_enabled : bool;
  m_hComm : HANDLE;
  m_sync_char : Z
}.

(** Modelled from the spec: Scheduler.cpp is not among the sources; the
    header documents [get_id] as "return the scheduler ID", [set_id] as "set
    the scheduler ID" and [get_num_events] as "return the number of events
    attached to the scheduler". *)
Definition get_id (s : Scheduler) : Z := m_id s.

Definition set_id (sched_id_ : Z) (s : Scheduler) : Scheduler :=
  {| m_id := sched_id_; m_events := m_events s; m_enabled := m_enabled s;
     m_hComm := m_hComm s; m_sync_char := m_sync_char s |}.

Definition get_num_events (s : Scheduler) : nat := length (m_events s).

(** Modelled from the spec: the [ReadMessage] class is not among the
    sources; [get_data()] yields the payload bytes of the reply, none when
    no reply arrived. *)
Record ReadMessage := { get_data : list Z }.

(** The fields of the Win32 [DCB] and [COMMTIMEOUTS] that
    [configure_port] writes. *)
Record DCB := {
  DCBlength : Z;
  BaudRate : Z;
  ByteSize : Z;
  StopBits : Z;
  Parity : Z;
  fOutX : bool;
  fInX : bool;
  fRtsControl : Z;
  fDtrControl : Z
}.

Record COMMTIMEOUTS := {
  ReadIntervalTimeout : Z;
  ReadTotalTimeoutConstant : Z;
  ReadTotalTimeoutMultiplier : Z;
  WriteTotalTimeoutConstant : Z;
  WriteTotalTimeoutMultiplier : Z
}.

Definition sizeof_DCB : Z := 28.
Definition CBR_9600 : Z := 9600.
Definition ONESTOPBIT : Z := 0.
Definition NOPARITY : Z := 0.
Definition RTS_CONTROL_DISABLE : Z := 0.
Definition DTR_CONTROL_DISABLE : Z := 0.

(** The members of [class Stimulator] that Stimulator.cpp uses
    (Stimulator.hpp is not among the sources). *)
Record Stimulator := {
  name : string;
  com_port : string;
  enabled : bool;
  channels : list Channel;
  scheduler : Scheduler;
  num_events : Z;
  amplitudes : list Z;
  pulsewidths : list Z;
  max_amplitudes : list Z;
  max_pulsewidths : list Z;
  channel_names : list string;
  hComm : HANDLE;
  dcbSerialParams : DCB;
  delay_time : Time;
  inc_messages : list ReadMessage
}.

Definition with_enabled (b : bool) (s : Stimulator) : Stimulator :=
  {| name := name s; com_port := com_port s; enabled := b;
     channels := channels s; scheduler := scheduler s;
     num_events := num_events s; amplitudes := amplitudes s;
     pulsewidths := pulsewidths s; max_amplitudes := max_amplitudes s;
     max_pulsewidths := max_pulsewidths s; channel_names := channel_names s;
     hComm := hComm s; dcbSerialParams := dcbSerialParams s;
     delay_time := delay_time s; inc_messages := inc_messages s |}.

Definition with_channels (cs : list Channel) (s : Stimulator) : Stimulator :=
  {| name := name s; com_port := com_port s; enabled := enabled s;
     channels := cs; scheduler := scheduler s;
     num_events := num_events s; amplitudes := amplitudes s;
     pulsewidths := pulsewidths s; max_amplitudes := max_amplitudes s;
     max_pulsewidths := max_pulsewidths s; channel_names := channel_names s;
     hComm := hComm s; dcbSerialParams := dcbSerialParams s;
     delay_time := delay_time s; inc_messages := inc_messages s |}.

Definition with_scheduler (sch : Scheduler) (s : Stimulator) : Stimulator :=
  {| name := name s; com_port := com_port s; enabled := enabled s;
     channels := channels s; scheduler := sch;
     num_events := num_events s; amplitudes := amplitudes s;
     pulsewidths := pulsewidths s; max_amplitudes := max_amplitudes s;
     max_pulsewidths := max_pulsewidths s; channel_names := channel_names s;
     hComm := hComm s; dcbSerialParams := dcbSerialParams s;
     delay_time := delay_time s; inc_messages := inc_messages s |}.

Definition with_hComm (h : HANDLE) (s : Stimulator) : Stimulator :=
  {| name := name s; com_port := com_port s; enabled := enabled s;
     channels := channels s; scheduler := scheduler s;
     num_events := num_events s; amplitudes := amplitudes s;
     pulsewidths := pulsewidths s; max_amplitudes := max_amplitudes s;
     max_pulsewidths := max_pulsewidths s; channel_names := channel_names s;
     hComm := h; dcbSerialParams := dcbSerialParams s;
     delay_time := delay_time s; inc_messages := inc_messages s |}.

Definition with_dcb (d : DCB) (s : Stimulator) : Stimulator :=
  {| name := name s; com_port := com_port s; enabled := enabled s;
     channels := channels s; scheduler := scheduler s;
     num_events := num_events s; amplitudes := amplitudes s;
     pulsewidths := pulsewidths s; max_amplitudes := max_amplitudes s;
     max_pulsewidths := max_pulsewidths s; channel_names := channel_names s;
     hComm := hComm s; dcbSerialParams := d;
     delay_time := delay_time s; inc_messages := inc_messages s |}.

Definition with_inc_messages (ms : list ReadMessage) (s : Stimulator) : Stimulator :=
  {| name := name s; com_port := com_port s; enabled := enabled s;
     channels := channels s; scheduler := scheduler s;
     num_events := num_events s; amplitudes := amplitudes s;
     pulsewidths := pulsewidths s; max_amplitudes := max_amplitudes s;
     max_pulsewidths := max_pulsewidths s; channel_names := channel_names s;
     hComm := hComm s; dcbSerialParams := dcbSerialParams s;
     delay_time := delay_time s; inc_messages := ms |}.

(** The four introspection arrays written by [update]. *)
Definition with_arrays (a p ma mp : list Z) (s : Stimulator) : Stimulator :=
  {| name := name s; com_port := com_port s; enabled := enabled s;
     channels := channels s; scheduler := scheduler s;
     num_events := num_events s; amplitudes := a;
     pulsewidths := p; max_amplitudes := ma;
     max_pulsewidths := mp; channel_names := channel_names s;
     hComm := hComm s; dcbSerialParams := dcbSerialParams s;
     delay_time := delay_time s; inc_messages := inc_messages s |}.

(** ** Observable behaviour

    Every interaction of the modelled code with the outside (a log line, a
    line on [std::cout], a Win32 call, a call into the parts of the library
    that are not among the sources) is appended to a trace, together with
    the result the outside gave. *)

Inductive Severity := Info | Error.

Inductive Obs :=
| ObsLog (lvl : Severity) (msg : string)
| ObsCout (s : string)
| ObsMutexLock
| ObsMutexUnlock
| ObsCreateFile (port_name : string) (h : HANDLE)
| ObsGetCommState (h : HANDLE) (ok : bool)
| ObsSetCommState (h : HANDLE) (dcb : DCB) (ok : bool)
| ObsSetCommTimeouts (h : HANDLE) (t : COMMTIMEOUTS) (ok : bool)
| ObsCloseHandle (h : HANDLE)
| ObsWriteFile (h : HANDLE) (bytes : list Z) (ok : bool)
| ObsReadFile (h : HANDLE) (ok : bool) (byte : option Z)
| ObsSetupChannel (c : Channel) (h : HANDLE) (delay : Time) (ok : bool)
| ObsSchedCreate (h : HANDLE) (sync_msg duration : Z) (delay : Time) (ok : bool)
| ObsSchedAddEvent (c : Channel) (delay : Time) (event_type : Z) (ok : bool)
| ObsSchedDisable
| ObsSchedSetAmp (c : Channel) (amp : Z)
| ObsSchedWritePw (c : Channel) (pw : Z)
| ObsSchedHalt (ok : bool)
| ObsSchedUpdate (ok : bool)
| ObsSchedSendSync (ok : bool)
| ObsWaitForMessage (h : HANDLE) (reply : ReadMessage).

(** The C++ exceptions the modelled code can let escape. *)
Inductive Exception :=
| range_error.

(** The result of running a piece of the driver: a value and a new world,
    undefined behaviour (an access outside a vector or buffer, or leaving a
    value-returning function without a [return]), a loop that did not
    finish within the fuel given, or an exception that leaves the
    function. *)
Inductive outcome (W A : Type) :=
| Ret (a : A) (w : W)
| Undef
| OutOfFuel
| Thrown (e : Exception).
Arguments Ret {W A} a w.
Arguments Undef {W A}.
Arguments OutOfFuel {W A}.
Arguments Thrown {W A} e.

Section Model.

(** The state of everything outside the modelled code: the operating
    system, the serial device, and the parts of the library that are not
    among the sources. *)
Context {Env : Type}.

Record World := {
  trace : list Obs;
  env : Env
}.

(** How the outside answers.  The Win32 calls are external; the methods of
    [Channel] and [Scheduler] and [wait_for_message] belong to files that
    are not among the sources, so their behaviour is a parameter.  They act
    on [Env] (and on the scheduler object), never on the trace. *)
Record Externals := {
  (** Whether [std::wstring_convert<std::codecvt_utf8<wchar_t>>::from_bytes]
      converts the given bytes; when it does not it throws
      [std::range_error].  Text is kept as its UTF-8 bytes, so the converted
      string is written as the bytes it came from. *)
  from_bytes_converts : string -> bool;
  CreateFileW : string -> Env -> HANDLE * Env;
  GetCommState : HANDLE -> DCB -> Env -> (bool * DCB) * Env;
  SetCommState : HANDLE -> DCB -> Env -> bool * Env;
  SetCommTimeouts : HANDLE -> COMMTIMEOUTS -> Env -> bool * Env;
  CloseHandle : HANDLE -> Env -> Env;
  WriteFile : HANDLE -> list Z -> Env -> bool * Env;
  (** [ReadFile] of one byte: the success flag, and the byte when
      [dwBytesRead] is not zero. *)
  ReadFile : HANDLE -> Env -> (bool * option Z) * Env;
  Channel_setup_channel : Channel -> HANDLE -> Time -> Env -> bool * Env;
  (** [create_scheduler] takes the handle by reference ([HANDLE&]). *)
  Scheduler_create_scheduler :
    HANDLE -> Z -> Z -> Time -> Scheduler -> Env -> (bool * HANDLE * Scheduler) * Env;
  (** [add_event] with the three arguments the Stimulator passes. *)
  Scheduler_add_event :
    Channel -> Time -> Z -> Scheduler -> Env -> (bool * Scheduler) * Env;
  Scheduler_disable : Scheduler -> Env -> Scheduler * Env;
  Scheduler_set_amp : Channel -> Z -> Scheduler -> Env -> Scheduler * Env;
  Scheduler_write_pw : Channel -> Z -> Scheduler -> Env -> Scheduler * Env;
  Scheduler_get_amp : Channel -> Scheduler -> Z;
  Scheduler_get_pw : Channel -> Scheduler -> Z;
  Scheduler_halt_scheduler : Scheduler -> Env -> (bool * Scheduler) * Env;
  Scheduler_update : Scheduler -> Env -> (bool * Scheduler) * Env;
  Scheduler_send_sync_msg : Scheduler -> Env -> (bool * Scheduler) * Env;
  (** [wait_for_message] takes the list of incoming messages by reference. *)
  wait_for_message :
    HANDLE -> list ReadMessage -> Env -> (ReadMessage * list ReadMessage) * Env
}.

Context (X : Externals).

(** *** A state monad over the world, with undefined behaviour *)

Definition M (A : Type) : Type := World -> outcome World A.

#[global] Instance M_ret : MRet M := fun A a w => Ret a w.

#[global] Instance M_bind : MBind M := fun A B f m w =>
  match m w with
  | Ret a w' => f a w'
  | Undef => Undef
  | OutOfFuel => OutOfFuel
  | Thrown e => Thrown e
  end.

Definition undefined {A : Type} : M A := fun _ => Undef.
Definition out_of_fuel {A : Type} : M A := fun _ => OutOfFuel.
Definition throw {A : Type} (e : Exception) : M A := fun _ => Thrown e.

Definition observe (o : Obs) : M unit := fun w =>
  Ret tt {| trace := trace w ++ [o]; env := env w |}.

(** A call to the outside: the environment answers, the call and its
    answer are recorded. *)
Definition extern {A : Type} (rsp : Env -> A * Env) (ob : A -> Obs) : M A := fun w =>
  let '(a, e) := rsp (env w) in
  Ret a {| trace := trace w ++ [ob a]; env := e |}.

Definition LOG (lvl : Severity) (msg : string) : M unit := observe (ObsLog lvl msg).
Definition cout (s : string) : M unit := observe (ObsCout s).
Definition endl : string := String (ascii_of_nat 10) EmptyString.

Definition when (b : bool) (m : M unit) : M unit := if b then m else mret tt.

(** *** Communication utility: [write_message] *)

(** [bool write_message(HANDLE hComm_, unsigned char* message_,
    const int message_size_, const std::string& activity)].  The buffer is
    written through the pointer, so its final content is returned with the
    result.  The buffer must hold [message_size_ >= 1] bytes. *)
Definition write_message (hComm_ : HANDLE) (message_ : list Z) (message_size_ : Z)
    (activity : string) : M (bool * list Z) :=
  let log_message := negb (String.eqb activity "NONE") in
  if negb ((1 <=? message_size_) && (message_size_ <=? Z.of_nat (length message_)))
  then undefined
  else
    let message_ := Codec.store_checksum message_ message_size_ in
    let bytes := take (Z.to_nat message_size_) message_ in
    ok ← extern (WriteFile X hComm_ bytes) (ObsWriteFile hComm_ bytes);
    if negb ok then
      when log_message (LOG Error ("Error " +:+ activity));;
      mret (false, message_)
    else
      when log_message (LOG Info (activity +:+ " was Successful."));;
      mret (true, message_).

(** *** Stimulator.cpp (namespace [mahi::fes]) *)

Definition is_enabled (st : Stimulator) : bool := enabled st.
Definition get_name (st : Stimulator) : string := name st.
Definition get_channels (st : Stimulator) : list Channel := channels st.

Definition open_port (st : Stimulator) : M (bool * Stimulator) :=
  let com_prefix := "\\.\" in
  if negb (from_bytes_converts X (com_port st)) then throw range_error
  else
  let com_suffix := com_port st in
  let comID := com_prefix +:+ com_suffix in
  h ← extern (CreateFileW X comID) (ObsCreateFile comID);
  let st := with_hComm h st in
  if hComm st =? INVALID_HANDLE_VALUE then
    LOG Error ("Failed to open Stimulator" +:+ get_name st);;
    mret (false, st)
  else
    LOG Info ("Opened Stimulator" +:+ get_name st);;
    mret (true, st).

Definition serial_settings (d : DCB) : DCB :=
  {| DCBlength := DCBlength d;
     BaudRate := CBR_9600;
     ByteSize := 8;
     StopBits := ONESTOPBIT;
     Parity := NOPARITY;
     fOutX := false;
     fInX := false;
     fRtsControl := RTS_CONTROL_DISABLE;
     fDtrControl := DTR_CONTROL_DISABLE |}.

Definition with_DCBlength (n : Z) (d : DCB) : DCB :=
  {| DCBlength := n; BaudRate := BaudRate d; ByteSize := ByteSize d;
     StopBits := StopBits d; Parity := Parity d; fOutX := fOutX d;
     fInX := fInX d; fRtsControl := fRtsControl d;
     fDtrControl := fDtrControl d |}.

Definition port_timeouts : COMMTIMEOUTS :=
  {| ReadIntervalTimeout := 10;
     ReadTotalTimeoutConstant := 10;
     ReadTotalTimeoutMultiplier := 10;
     WriteTotalTimeoutConstant := 50;
     WriteTotalTimeoutMultiplier := 10 |}.

Definition configure_port (st : Stimulator) : M (bool * Stimulator) :=
  let st := with_dcb (with_DCBlength sizeof_DCB (dcbSerialParams st)) st in
  r ← extern (GetCommState X (hComm st) (dcbSerialParams st))
             (fun r => ObsGetCommState (hComm st) (fst r));
  let st := with_dcb (snd r) st in
  if negb (fst r) then
    LOG Error "Error getting serial port state";;
    mret (false, st)
  else
    let st := with_dcb (serial_settings (dcbSerialParams st)) st in
    ok ← extern (SetCommState X (hComm st) (dcbSerialParams st))
                (ObsSetCommState (hComm st) (dcbSerialParams st));
    if negb ok then
      LOG Error "Error setting serial port state";;
      mret (false, st)
    else
      let timeouts := port_timeouts in
      ok ← extern (SetCommTimeouts X (hComm st) timeouts)
                  (ObsSetCommTimeouts (hComm st) timeouts);
      if negb ok then
        LOG Error "Error setting serial port timeouts";;
        mret (false, st)
      else mret (true, st).

(** The loop of [initialize_board] over [channels]; [false] is the
    [return false] inside the loop, [true] means the loop ran to its end. *)
Fixpoint initialize_board_loop (h : HANDLE) (delay : Time) (cs : list Channel) : M bool :=
  match cs with
  | [] => mret true
  | c :: cs' =>
      ok ← extern (Channel_setup_channel X c h delay) (ObsSetupChannel c h delay);
      if negb ok then mret false
      else initialize_board_loop h delay cs'
  end.

Definition initialize_board (st : Stimulator) : M (bool * Stimulator) :=
  finished ← initialize_board_loop (hComm st) (delay_time st) (channels st);
  if negb finished then mret (false, st)
  else
    LOG Info "Setup Completed successfully.";;
    mret (true, st).

Definition enable (st : Stimulator) : M (bool * Stimulator) :=
  '(ok, st) ← open_port st;
  if negb ok then
    let st := with_enabled false st in mret (enabled st, st)
  else
  '(ok, st) ← configure_port st;
  if negb ok then
    let st := with_enabled false st in mret (enabled st, st)
  else
  '(ok, st) ← initialize_board st;
  if negb ok then
    let st := with_enabled false st in mret (enabled st, st)
  else
    let st := with_enabled true st in mret (enabled st, st).

Definition close_stimulator (st : Stimulator) : M (unit * Stimulator) :=
  extern (fun e => (tt, CloseHandle X (hComm st) e)) (fun _ => ObsCloseHandle (hComm st));;
  mret (tt, with_enabled false st).

Definition disable (st : Stimulator) : M (unit * Stimulator) :=
  st ← (if is_enabled st then
          sch ← extern (Scheduler_disable X (scheduler st)) (fun _ => ObsSchedDisable);
          let st := with_scheduler sch st in
          '(_, st) ← close_stimulator st;
          LOG Info "Stimulator Disabled";;
          mret st
        else
          LOG Info "Stimulator has not been enabled yet.";;
          mret st);
  mret (tt, with_enabled false st).

Definition halt_scheduler (st : Stimulator) : M (bool * Stimulator) :=
  r ← extern (Scheduler_halt_scheduler X (scheduler st)) (fun r => ObsSchedHalt (fst r));
  mret (fst r, with_scheduler (snd r) st).

Definition begin (st : Stimulator) : M (bool * Stimulator) :=
  if is_enabled st then
    let st := with_enabled true st in
    r ← extern (Scheduler_send_sync_msg X (scheduler st)) (fun r => ObsSchedSendSync (fst r));
    mret (fst r, with_scheduler (snd r) st)
  else
    LOG Error "Stimulator has not yet been opened. Not starting the stimulator";;
    mret (false, st).

Definition set_amp (st : Stimulator) (channel_ : Channel) (amp_ : Z) : M (unit * Stimulator) :=
  if is_enabled st then
    sch ← extern (Scheduler_set_amp X channel_ amp_ (scheduler st))
                 (fun _ => ObsSchedSetAmp channel_ amp_);
    mret (tt, with_scheduler sch st)
  else
    LOG Error "Stimulator has not yet been enabled. Not writing amplitude";;
    mret (tt, st).

Definition write_pw (st : Stimulator) (channel_ : Channel) (pw_ : Z) : M (unit * Stimulator) :=
  if is_enabled st then
    sch ← extern (Scheduler_write_pw X channel_ pw_ (scheduler st))
                 (fun _ => ObsSchedWritePw channel_ pw_);
    mret (tt, with_scheduler sch st)
  else
    LOG Error "Stimulator has not yet been enabled. Not writing pulsewidth";;
    mret (tt, st).

(** The loop of [update_max_amp] / [update_max_pw] over [channels]: the
    first channel whose name equals [name_] is changed by [set] and the
    function returns; [None] means the loop ran to its end. *)
Fixpoint update_first (name_ : string) (set : Channel -> Channel)
    (cs : list Channel) : option (list Channel) :=
  match cs with
  | [] => None
  | channel :: cs' =>
      if String.eqb (get_channel_name channel) name_
      then Some (set channel :: cs')
      else cons channel <$> update_first name_ set cs'
  end.

Definition update_max_amp (st : Stimulator) (channel_ : Channel) (max_amp_ : Z)
    : M (unit * Stimulator) :=
  match update_first (get_channel_name channel_) (set_max_amplitude max_amp_) (channels st) with
  | Some cs => mret (tt, with_channels cs st)
  | None =>
      LOG Error "Did not find the correct channel to update";;
      mret (tt, st)
  end.

Definition update_max_pw (st : Stimulator) (channel_ : Channel) (max_pw_ : Z)
    : M (unit * Stimulator) :=
  match update_first (get_channel_name channel_) (set_max_pulse_width max_pw_) (channels st) with
  | Some cs => mret (tt, with_channels cs st)
  | None =>
      LOG Error "Did not find the correct channel to update";;
      mret (tt, st)
  end.

(** The loop of [read_all]: one [ReadFile] of a single byte per round, until
    a read leaves [dwBytesRead] at zero.  How long the device keeps sending
    is up to the device, so the loop runs on fuel. *)
Fixpoint read_all_loop (fuel : nat) (h : HANDLE) (first_pass : bool) : M unit :=
  match fuel with
  | O => out_of_fuel
  | S fuel' =>
      r ← extern (ReadFile X h) (fun r => ObsReadFile h (fst r) (snd r));
      when (negb (fst r)) (LOG Error "Could not read message");;
      match snd r with
      | Some byte =>
          when first_pass (cout "Message: ");;
          cout (Codec.print_as_hex byte);;
          cout ", ";;
          read_all_loop fuel' h false
      | None =>
          cout endl
      end
  end.

Definition read_all (fuel : nat) (st : Stimulator) : M unit :=
  read_all_loop fuel (hComm st) true.

(** The loop of [update] that copies the staged values into the four
    arrays; [None] is an access outside [channels] or outside one of the
    arrays. *)
Fixpoint snapshot_loop (n i : nat) (st : Stimulator) : option Stimulator :=
  match n with
  | O => Some st
  | S n' =>
      match channels st !! i with
      | None => None
      | Some c =>
          if ((i <? length (amplitudes st)) && (i <? length (pulsewidths st)) &&
              (i <? length (max_amplitudes st)) && (i <? length (max_pulsewidths st)))%nat
          then
            snapshot_loop n' (S i)
              (with_arrays
                 (<[i := Scheduler_get_amp X c (scheduler st)]> (amplitudes st))
                 (<[i := Scheduler_get_pw X c (scheduler st)]> (pulsewidths st))
                 (<[i := get_max_amplitude c]> (max_amplitudes st))
                 (<[i := get_max_pulse_width c]> (max_pulsewidths st))
                 st)
          else None
      end
  end.

Definition update (fuel : nat) (st : Stimulator) : M (bool * Stimulator) :=
  if is_enabled st then
    observe ObsMutexLock;;
    match snapshot_loop (get_num_events (scheduler st)) 0 st with
    | None => undefined
    | Some st =>
        observe ObsMutexUnlock;;
        r ← extern (Scheduler_update X (scheduler st)) (fun r => ObsSchedUpdate (fst r));
        let success := fst r in
        let st := with_scheduler (snd r) st in
        read_all fuel st;;
        mret (success, st)
    end
  else
    LOG Error "Stimulator has not yet been enabled. Not updating";;
    mret (false, st).

Definition create_scheduler (st : Stimulator) (sync_msg : Z) (frequency_ : Frequency)
    : M (bool * Stimulator) :=
  let duration := if freq_positive frequency_ then freq_period_ms frequency_ else 50 in
  if is_enabled st then
    r ← extern (Scheduler_create_scheduler X (hComm st) sync_msg duration
                  (delay_time st) (scheduler st))
               (fun r => ObsSchedCreate (hComm st) sync_msg duration (delay_time st)
                           (fst (fst r)));
    let success := fst (fst r) in
    let st := with_scheduler (snd r) (with_hComm (snd (fst r)) st) in
    m ← extern (wait_for_message X (hComm st) (inc_messages st))
               (fun m => ObsWaitForMessage (hComm st) (fst m));
    let scheduler_created_msg := fst m in
    let st := with_inc_messages (snd m) st in
    match get_data scheduler_created_msg with
    | [] => undefined
    | id :: _ =>
        cout (Codec.print_as_hex id);;
        cout endl;;
        mret (success, with_scheduler (set_id id (scheduler st)) st)
    end
  else
    LOG Error "Stimulator has not yet been enabled. Not creating scheduler";;
    mret (false, st).

Definition add_event (st : Stimulator) (channel_ : Channel) (event_type : Z)
    : M (bool * Stimulator) :=
  if is_enabled st then
    r ← extern (Scheduler_add_event X channel_ (delay_time st) event_type (scheduler st))
               (fun r => ObsSchedAddEvent channel_ (delay_time st) event_type (fst r));
    let success := fst r in
    mret (success, with_scheduler (snd r) st)
  else
    LOG Error "Stimulator has not yet been enabled. Not adding event to scheduler";;
    mret (false, st).

(** The loop of [add_events] over [channels_]. *)
Fixpoint add_events_loop (st : Stimulator) (channels_ : list Channel) (event_type : Z)
    : M (bool * Stimulator) :=
  match channels_ with
  | [] => mret (true, st)
  | c :: rest =>
      '(ok, st) ← add_event st c event_type;
      if negb ok then mret (false, st)
      else add_events_loop st rest event_type
  end.

Definition add_events (st : Stimulator) (channels_ : list Channel) (event_type : Z)
    : M (bool * Stimulator) :=
  if is_enabled st then add_events_loop st channels_ event_type
  else
    LOG Error "Stimulator has not yet been enabled. Not adding event to scheduler";;
    mret (false, st).

End Model.

(** *** The value a call hands back to its caller *)

(** A C++ function either returns a [bool] or, declared [void], returns
    nothing. *)
Inductive cvalue :=
| VVoid
| VBool (b : bool).

Class Returns (A : Type) := returned : A -> cvalue.
#[global] Instance returns_void : Returns unit := fun _ => VVoid.
#[global] Instance returns_bool : Returns bool := fun b => VBool b.

(** ** The earlier Stimulator.cpp (namespace [fes], src/FES/Core) *)

Module Legacy.
Section LegacyModel.

Context {Env : Type} (X : @Externals Env).

Record Stimulator := {
  name : string;
  com_port : string;
  open : bool;
  channels : list Channel;
  scheduler : Scheduler;
  hComm : HANDLE;
  dcbSerialParams : DCB;
  delay_time : Time
}.

Definition with_open (b : bool) (s : Stimulator) : Stimulator :=
  {| name := name s; com_port := com_port s; open := b; channels := channels s;
     scheduler := scheduler s; hComm := hComm s;
     dcbSerialParams := dcbSerialParams s; delay_time := delay_time s |}.

Definition with_hComm (h : HANDLE) (s : Stimulator) : Stimulator :=
  {| name := name s; com_port := com_port s; open := open s; channels := channels s;
     scheduler := scheduler s; hComm := h;
     dcbSerialParams := dcbSerialParams s; delay_time := delay_time s |}.

Definition with_dcb (d : DCB) (s : Stimulator) : Stimulator :=
  {| name := name s; com_port := com_port s; open := open s; channels := channels s;
     scheduler := scheduler s; hComm := hComm s;
     dcbSerialParams := d; delay_time := delay_time s |}.

Definition is_enabled (st : Stimulator) : bool := open st.
Definition get_name (st : Stimulator) : string := name st.

(** [open_port(HANDLE& hComm_)], called with the member [hComm]. *)
Definition open_port (st : Stimulator) : M (bool * Stimulator) :=
  let com_port_formatted := "\\.\" +:+ com_port st in
  h ← extern (CreateFileW X com_port_formatted) (ObsCreateFile com_port_formatted);
  let st := with_hComm h st in
  if hComm st =? INVALID_HANDLE_VALUE then
    LOG Error ("Failed to open Stimulator" +:+ get_name st);;
    mret (false, st)
  else
    LOG Info ("Opened Stimulator" +:+ get_name st);;
    mret (true, st).

Definition port_timeouts : COMMTIMEOUTS :=
  {| ReadIntervalTimeout := 50;
     ReadTotalTimeoutConstant := 50;
     ReadTotalTimeoutMultiplier := 10;
     WriteTotalTimeoutConstant := 50;
     WriteTotalTimeoutMultiplier := 10 |}.

Definition configure_port (st : Stimulator) : M (bool * Stimulator) :=
  let st := with_dcb (with_DCBlength sizeof_DCB (dcbSerialParams st)) st in
  r ← extern (GetCommState X (hComm st) (dcbSerialParams st))
             (fun r => ObsGetCommState (hComm st) (fst r));
  let st := with_dcb (snd r) st in
  if negb (fst r) then
    LOG Error "Error getting serial port state";;
    mret (false, st)
  else
    let st := with_dcb (serial_settings (dcbSerialParams st)) st in
    ok ← extern (SetCommState X (hComm st) (dcbSerialParams st))
                (ObsSetCommState (hComm st) (dcbSerialParams st));
    if negb ok then
      LOG Error "Error setting serial port state";;
      mret (false, st)
    else
      let timeouts := port_timeouts in
      ok ← extern (SetCommTimeouts X (hComm st) timeouts)
                  (ObsSetCommTimeouts (hComm st) timeouts);
      if negb ok then
        LOG Error "Error setting serial port timeouts";;
        mret (false, st)
      else mret (true, st).

Definition initialize_board (st : Stimulator) : M (bool * Stimulator) :=
  finished ← initialize_board_loop X (hComm st) (delay_time st) (channels st);
  if negb finished then mret (false, st)
  else
    LOG Info "Setup Completed successfully.";;
    mret (true, st).

(** The three statements of [bool Stimulator::enable()]. *)
Definition enable_statements (st : Stimulator) : M Stimulator :=
  '(r, st) ← open_port st;
  let st := with_open r st in
  '(_, st) ← configure_port st;
  '(_, st) ← initialize_board st;
  mret st.

(** The function is declared [bool] and its body ends without a [return]:
    control flows off the end, which is undefined behaviour. *)
Definition enable (st : Stimulator) : M (bool * Stimulator) :=
  _ ← enable_statements st;
  undefined.

End LegacyModel.
End Legacy.

(** ** A simulated device

    A concrete environment on which the model runs: a port that opens or
    not, a link that accepts writes or not, bytes waiting to be read, the
    payload of the next handshake reply, and the outcomes of the coming
    calls that set up a channel or talk to the scheduler.  Its string
    conversion accepts the port names made of ASCII characters and no
    other. *)

Module Bench.

Record Device := {
  port_handle : HANDLE;
  comm_ok : bool;
  write_ok : bool;
  written : list (list Z);
  rx : list Z;
  reply : list Z;
  script : list bool
}.

Definition with_written (fs : list (list Z)) (d : Device) : Device :=
  {| port_handle := port_handle d; comm_ok := comm_ok d; write_ok := write_ok d;
     written := fs; rx := rx d; reply := reply d; script := script d |}.

Definition with_rx (bs : list Z) (d : Device) : Device :=
  {| port_handle := port_handle d; comm_ok := comm_ok d; write_ok := write_ok d;
     written := written d; rx := bs; reply := reply d; script := script d |}.

Definition with_script (bs : list bool) (d : Device) : Device :=
  {| port_handle := port_handle d; comm_ok := comm_ok d; write_ok := write_ok d;
     written := written d; rx := rx d; reply := reply d; script := bs |}.

(** The outcome of the next scripted call; calls succeed once the script
    is used up. *)
Definition next (d : Device) : bool * Device :=
  match script d with
  | [] => (true, d)
  | b :: bs => (b, with_script bs d)
  end.

Definition new_event (c : Channel) (event_type : Z) (s : Scheduler) : Scheduler :=
  {| m_id := m_id s;
     m_events := m_events s ++
       [{| ev_channel := c; ev_id := Z.of_nat (length (m_events s));
           ev_amplitude := 0; ev_pulse_width := 0; ev_type := event_type |}];
     m_enabled := m_enabled s; m_hComm := m_hComm s; m_sync_char := m_sync_char s |}.

Definition with_m_enabled (b : bool) (s : Scheduler) : Scheduler :=
  {| m_id := m_id s; m_events := m_events s; m_enabled := b;
     m_hComm := m_hComm s; m_sync_char := m_sync_char s |}.

Definition stage (f : Event -> Event) (c : Channel) (s : Scheduler) : Scheduler :=
  {| m_id := m_id s;
     m_events := map (fun e => if String.eqb (channel_name (ev_channel e)) (channel_name c)
                               then f e else e) (m_events s);
     m_enabled := m_enabled s; m_hComm := m_hComm s; m_sync_char := m_sync_char s |}.

Definition stage_amp (a : Z) (e : Event) : Event :=
  {| ev_channel := ev_channel e; ev_id := ev_id e; ev_amplitude := a;
     ev_pulse_width := ev_pulse_width e; ev_type := ev_type e |}.

Definition stage_pw (p : Z) (e : Event) : Event :=
  {| ev_channel := ev_channel e; ev_id := ev_id e; ev_amplitude := ev_amplitude e;
     ev_pulse_width := p; ev_type := ev_type e |}.

Definition staged (f : Event -> Z) (c : Channel) (s : Scheduler) : Z :=
  match filter (fun e => String.eqb (channel_name (ev_channel e)) (channel_name c) = true)
               (m_events s) with
  | e :: _ => f e
  | [] => 0
  end.

Definition externals : @Externals Device :=
  {| from_bytes_converts := fun s =>
       forallb (fun c => (nat_of_ascii c <? 128)%nat) (list_ascii_of_string s);
     CreateFileW := fun _ d => (port_handle d, d);
     GetCommState := fun _ dcb d => ((comm_ok d, dcb), d);
     SetCommState := fun _ _ d => (comm_ok d, d);
     SetCommTimeouts := fun _ _ d => (comm_ok d, d);
     CloseHandle := fun _ d => d;
     WriteFile := fun _ bytes d =>
       (write_ok d, if write_ok d then with_written (written d ++ [bytes]) d else d);
     ReadFile := fun _ d =>
       match rx d with
       | [] => ((true, None), d)
       | b :: bs => ((true, Some b), with_rx bs d)
       end;
     Channel_setup_channel := fun _ _ _ d => next d;
     Scheduler_create_scheduler := fun h _ _ _ s d =>
       ((fst (next d), h, s), snd (next d));
     Scheduler_add_event := fun c _ ty s d =>
       ((fst (next d), if fst (next d) then new_event c ty s else s), snd (next d));
     Scheduler_disable := fun s d => (with_m_enabled false s, d);
     Scheduler_set_amp := fun c a s d => (stage (stage_amp a) c s, d);
     Scheduler_write_pw := fun c p s d => (stage (stage_pw p) c s, d);
     Scheduler_get_amp := staged ev_amplitude;
     Scheduler_get_pw := staged ev_pulse_width;
     Scheduler_halt_scheduler := fun s d =>
       ((fst (next d), with_m_enabled false s), snd (next d));
     Scheduler_update := fun s d => ((fst (next d), s), snd (next d));
     Scheduler_send_sync_msg := fun s d =>
       ((fst (next d), with_m_enabled true s), snd (next d));
     wait_for_message := fun _ inc d => (({| get_data := reply d |}, inc), d) |}.

Definition device : Device :=
  {| port_handle := 7; comm_ok := true; write_ok := true; written := [];
     rx := []; reply := []; script := [] |}.

Definition quad : Channel :=
  {| channel_name := "Quad"; board_channel := 0; max_amplitude := 50;
     max_pulse_width := 250; ip_delay := 100; aspect := 17; an_ca := 1 |}.

Definition ham : Channel :=
  {| channel_name := "Ham"; board_channel := 1; max_amplitude := 40;
     max_pulse_width := 200; ip_delay := 100; aspect := 17; an_ca := 35 |}.

Definition no_scheduler : Scheduler :=
  {| m_id := 0; m_events := []; m_enabled := false; m_hComm := 0; m_sync_char := 0 |}.

Definition no_dcb : DCB :=
  {| DCBlength := 0; BaudRate := 0; ByteSize := 0; StopBits := 0; Parity := 0;
     fOutX := false; fInX := false; fRtsControl := 0; fDtrControl := 0 |}.

(** A Stimulator as its constructor leaves it before [enable()] runs. *)
Definition stim : Stimulator :=
  {| name := "UECU"; com_port := "COM5"; enabled := false;
     channels := [quad; ham]; scheduler := no_scheduler; num_events := 2;
     amplitudes := [0; 0]; pulsewidths := [0; 0];
     max_amplitudes := [50; 40]; max_pulsewidths := [250; 200];
     channel_names := ["Quad"; "Ham"]; hComm := 0; dcbSerialParams := no_dcb;
     delay_time := 1000; inc_messages := [] |}.

Definition world (d : Device) : @World Device := {| trace := []; env := d |}.

(** The same Stimulator once enabled on handle 7, with one event per channel
    and amplitude 30, pulse width 120 staged for the first. *)
Definition two_events : Scheduler :=
  {| m_id := 3;
     m_events :=
       [{| ev_channel := quad; ev_id := 0; ev_amplitude := 30;
           ev_pulse_width := 120; ev_type := 3 |};
        {| ev_channel := ham; ev_id := 1; ev_amplitude := 0;
           ev_pulse_width := 0; ev_type := 3 |}];
     m_enabled := true; m_hComm := 7; m_sync_char := 170 |}.

Definition running : Stimulator :=
  with_scheduler two_events (with_hComm 7 (with_enabled true stim)).

(** Variants of the device. *)
Definition replying (bytes : list Z) : Device :=
  {| port_handle := 7; comm_ok := true; write_ok := true; written := [];
     rx := []; reply := bytes; script := [] |}.

Definition sending (bytes : list Z) : Device :=
  {| port_handle := 7; comm_ok := true; write_ok := true; written := [];
     rx := bytes; reply := []; script := [] |}.

Definition scripted (outcomes : list bool) : Device :=
  {| port_handle := 7; comm_ok := true; write_ok := true; written := [];
     rx := []; reply := []; script := outcomes |}.

(** No device on the port: the port does not open, the serial calls fail,
    and the first channel set-up fails. *)
Definition absent : Device :=
  {| port_handle := INVALID_HANDLE_VALUE; comm_ok := false; write_ok := false;
     written := []; rx := []; reply := []; script := [false] |}.

Definition legacy_stim : Legacy.Stimulator :=
  {| Legacy.name := "UECU"; Legacy.com_port := "COM5"; Legacy.open := false;
     Legacy.channels := [quad; ham]; Legacy.scheduler := no_scheduler;
     Legacy.hComm := 0; Legacy.dcbSerialParams := no_dcb;
     Legacy.delay_time := 1000 |}.

End Bench.

(** ** Vocabulary of the statements *)

Section Vocabulary.

Context {Env : Type} (X : @Externals Env).

(** The scheduler and the environment after [add_event] was called for each
    channel of [cs] in turn, whatever each call answered. *)
Definition after_add_events (delay : Time) (event_type : Z) (cs : list Channel)
    (start : Scheduler * Env) : Scheduler * Env :=
  fold_left
    (fun (se : Scheduler * Env) c =>
       let r := Scheduler_add_event X c delay event_type (fst se) (snd se) in
       (snd (fst r), snd r))
    cs start.

(** The device hands over the bytes [rs] one read at a time (each with the
    success flag of its [ReadFile]) and then a read comes back with no byte;
    [e'] is the environment after that last read. *)
Fixpoint reads_then_empty (h : HANDLE) (rs : list (bool * Z)) (last_ok : bool)
    (e e' : Env) : Prop :=
  match rs with
  | [] => ReadFile X h e = ((last_ok, None), e')
  | (ok, b) :: rs' =>
      exists e1, ReadFile X h e = ((ok, Some b), e1)
                 /\ reads_then_empty h rs' last_ok e1 e'
  end.

End Vocabulary.

Definition read_error (ok : bool) : list Obs :=
  if ok then [] else [ObsLog Error "Could not read message"].

(** What a drain of the bytes [rs] followed by an empty read shows. *)
Fixpoint drain_obs (h : HANDLE) (first_pass : bool) (rs : list (bool * Z))
    (last_ok : bool) : list Obs :=
  match rs with
  | [] => ObsReadFile h last_ok None :: read_error last_ok ++ [ObsCout endl]
  | (ok, b) :: rs' =>
      ObsReadFile h ok (Some b) :: read_error ok
      ++ (if first_pass then [ObsCout "Message: "] else [])
      ++ [ObsCout (Codec.print_as_hex b); ObsCout ", "]
      ++ drain_obs h false rs' last_ok
  end.





(** The content of one of the four arrays after the loop of [update] ran
    for the indices [i .. i + n - 1]: these hold [f] of the channels at the
    same indices, the rest is as before. *)
Definition snapshot_of (chans : list Channel) (i n : nat) (f : Channel -> Z)
    (old : list Z) : list Z :=
  take i old ++ map f (take n (drop i chans)) ++ drop (i + n) old.


(** ** Further functions of Stimulator.cpp *)

(** Conversion of an [int] to [unsigned int] (32 bits). *)
Definition to_uint (z : Z) : Z := z mod 2 ^ 32.

Section BatchSetters.

Context {Env : Type} (X : @Externals Env).

(** The loop of [set_amps]: [set_amp(channels_[i], amplitudes_[i])] for
    every index of [channels_]; [rest] holds the channels from index [i]
    on.  The [int] taken from [amplitudes_] is converted to the
    [unsigned int] parameter of [set_amp]; an index outside [amplitudes_]
    is undefined behaviour. *)
Fixpoint set_amps_loop (i : nat) (st : Stimulator) (rest : list Channel)
    (amplitudes_ : list Z) : M (unit * Stimulator) :=
  match rest with
  | [] => mret (tt, st)
  | c :: rest' =>
      match amplitudes_ !! i with
      | None => undefined
      | Some a =>
          '(_, st) ← set_amp X st c (to_uint a);
          set_amps_loop (S i) st rest' amplitudes_
      end
  end.

Definition set_amps (st : Stimulator) (channels_ : list Channel) (amplitudes_ : list Z)
    : M (unit * Stimulator) :=
  set_amps_loop 0 st channels_ amplitudes_.

(** The loop of [write_pws], likewise over [write_pw]. *)
Fixpoint write_pws_loop (i : nat) (st : Stimulator) (rest : list Channel)
    (pulsewidths_ : list Z) : M (unit * Stimulator) :=
  match rest with
  | [] => mret (tt, st)
  | c :: rest' =>
      match pulsewidths_ !! i with
      | None => undefined
      | Some p =>
          '(_, st) ← write_pw X st c (to_uint p);
          write_pws_loop (S i) st rest' pulsewidths_
      end
  end.

Definition write_pws (st : Stimulator) (channels_ : list Channel) (pulsewidths_ : list Z)
    : M (unit * Stimulator) :=
  write_pws_loop 0 st channels_ pulsewidths_.

End BatchSetters.

(** No observation of [done] is a [CloseHandle]. *)
Definition never_closes (done : list Obs) : Prop :=
  Forall (fun o => forall h, o ≠ ObsCloseHandle h) done.

(** A device that has a byte ready at every read. *)
Definition chatty_externals : @Externals Bench.Device :=
  {| from_bytes_converts := from_bytes_converts Bench.externals;
     CreateFileW := CreateFileW Bench.externals;
     GetCommState := GetCommState Bench.externals;
     SetCommState := SetCommState Bench.externals;
     SetCommTimeouts := SetCommTimeouts Bench.externals;
     CloseHandle := CloseHandle Bench.externals;
     WriteFile := WriteFile Bench.externals;
     ReadFile := fun _ d => ((true, Some 85), d);
     Channel_setup_channel := Channel_setup_channel Bench.externals;
     Scheduler_create_scheduler := Scheduler_create_scheduler Bench.externals;
     Scheduler_add_event := Scheduler_add_event Bench.externals;
     Scheduler_disable := Scheduler_disable Bench.externals;
     Scheduler_set_amp := Scheduler_set_amp Bench.externals;
     Scheduler_write_pw := Scheduler_write_pw Bench.externals;
     Scheduler_get_amp := Scheduler_get_amp Bench.externals;
     Scheduler_get_pw := Scheduler_get_pw Bench.externals;
     Scheduler_halt_scheduler := Scheduler_halt_scheduler Bench.externals;
     Scheduler_update := Scheduler_update Bench.externals;
     Scheduler_send_sync_msg := Scheduler_send_sync_msg Bench.externals;
     wait_for_message := wait_for_message Bench.externals |}.

(** * Properties *)

(** ** Checksum and framing helpers *)

Section CodecFacts.
Import Codec.

Lemma fold_add_acc (l : list Z) (a : Z) :
  fold_left Z.add l a = a + fold_left Z.add l 0.
Proof.
  revert a. induction l as [|b l IH]; intros a; cbn [fold_left]; [lia|].
  rewrite (IH (a + b)), (IH (0 + b)). lia.
Qed.

(** The accumulator [csum] stays within the range of a 32-bit [int] for
    every buffer of bytes shorter than 2^23, so the sum in [Z] is the sum
    the C++ loop computes. *)
Lemma checksum_sum_bound (l : list Z) :
  Forall is_byte l -> 0 <= fold_left Z.add l 0 <= 255 * Z.of_nat (length l).
Proof.
  induction 1 as [|b l Hb _ IH]; cbn [fold_left length]; [lia|].
  rewrite fold_add_acc. unfold is_byte in Hb. lia.
Qed.

Lemma checksum_ignores_last (message_ : list Z) (message_size_ x : Z) :
  checksum (<[Z.to_nat (message_size_ - 1) := x]> message_) message_size_
  = checksum message_ message_size_.
Proof.
  unfold checksum. rewrite take_insert_ge by lia. reflexivity.
Qed.

Lemma to_uchar_is_byte (z : Z) : is_byte (to_uchar z).
Proof. unfold is_byte, to_uchar. apply Z.mod_pos_bound. lia. Qed.

End CodecFacts.

(** C2: recomputing the checksum over a frame whose final byte already holds
    the computed checksum gives the same checksum, since the final byte is
    not part of the sum: the recomputed value equals the first one, the
    final byte of the frame is that value as a byte, and storing it again
    leaves the frame as it is. *)
Theorem checksum_recompute_idempotent (message_ : list Z) (message_size_ : Z) :
  1 <= message_size_ <= Z.of_nat (length message_) ->
  let frame := Codec.store_checksum message_ message_size_ in
  Codec.checksum frame message_size_ = Codec.checksum message_ message_size_
  /\ frame !! Z.to_nat (message_size_ - 1)
     = Some (Codec.to_uchar (Codec.checksum frame message_size_))
  /\ Codec.store_checksum frame message_size_ = frame.
Proof.
  intros Hsize frame.
  assert (Hsame : Codec.checksum frame message_size_
                  = Codec.checksum message_ message_size_)
    by apply checksum_ignores_last.
  split; [exact Hsame|]. split.
  - rewrite Hsame. unfold frame, Codec.store_checksum.
    apply list_lookup_insert_eq. lia.
  - unfold Codec.store_checksum at 1. fold frame. rewrite Hsame.
    unfold frame, Codec.store_checksum. apply list_insert_insert_eq.
Qed.

Lemma checksum_recompute_idempotent_witness :
  let frame := Codec.store_checksum [4; 128; 3; 1; 7; 0] 6 in
  frame = [4; 128; 3; 1; 7; 112]
  /\ Codec.checksum frame 6 = Codec.checksum [4; 128; 3; 1; 7; 0] 6.
Proof.
  split; [reflexivity|].
  apply (checksum_recompute_idempotent [4; 128; 3; 1; 7; 0] 6).
  simpl. lia.
Defined.

(** C8: for n in 0..65535, [int_to_twobytes n] is the big-endian pair
    (n / 256, n % 256); 300 gives (1, 44), 0 gives (0, 0), 65535 gives
    (255, 255); any other [int] goes through the same division / remainder
    split, each result converted to a byte, with no bounds check. *)
Theorem int_to_twobytes_split (n : Z) :
  0 <= n <= 65535 ->
  Codec.int_to_twobytes n = [n / 256; n mod 256]
  /\ Codec.int_to_twobytes 300 = [1; 44]
  /\ Codec.int_to_twobytes 0 = [0; 0]
  /\ Codec.int_to_twobytes 65535 = [255; 255]
  /\ forall m : Z,
       Codec.int_to_twobytes m
       = [Codec.to_uchar (Z.quot m 256); Codec.to_uchar (Z.rem m 256)]
       /\ Forall Codec.is_byte (Codec.int_to_twobytes m).
Proof.
  intros Hn. repeat split; try reflexivity.
  - unfold Codec.int_to_twobytes, Codec.to_uchar. simpl.
    rewrite Z.quot_div_nonneg, Z.rem_mod_nonneg by lia.
    assert (0 <= n / 256 < 256)
      by (split; [apply Z.div_pos; lia | apply Z.div_lt_upper_bound; lia]).
    rewrite (Z.mod_small (n / 256)) by lia.
    rewrite Z.mod_mod by lia. reflexivity.
  - unfold Codec.int_to_twobytes. simpl.
    repeat constructor; apply to_uchar_is_byte.
Qed.

Lemma int_to_twobytes_split_witness :
  Codec.int_to_twobytes 4660 = [4660 / 256; 4660 mod 256].
Proof.
  apply (int_to_twobytes_split 4660). lia.
Defined.

(** ** The driver against an arbitrary environment *)

Section DriverFacts.

Context {Env : Type} (X : @Externals Env).
Implicit Types (w : @World Env) (st : Stimulator).

Lemma bind_ret {A B : Type} (m : M A) (f : A -> M B) w a w1 :
  m w = Ret a w1 -> (m ≫= f) w = f a w1.
Proof. intros H. unfold mbind, M_bind. rewrite H. reflexivity. Qed.

Lemma extern_run {A : Type} (rsp : Env -> A * Env) (ob : A -> Obs) w :
  extern rsp ob w
  = Ret (fst (rsp (env w)))
        {| trace := trace w ++ [ob (fst (rsp (env w)))]; env := snd (rsp (env w)) |}.
Proof. unfold extern. destruct (rsp (env w)); reflexivity. Qed.

Lemma LOG_run lvl msg w :
  LOG lvl msg w = Ret tt {| trace := trace w ++ [ObsLog lvl msg]; env := env w |}.
Proof. reflexivity. Qed.

(** C3: [write_message] puts the checksum into the last byte of the buffer,
    then hands the frame to the transport, and returns the transport's
    success flag ([false] exactly when the write failed); the buffer holds
    the checksum whatever the write did. *)
Theorem write_message_checksum_then_write
    (hComm_ : HANDLE) (message_ : list Z) (message_size_ : Z) (activity : string) w :
  1 <= message_size_ <= Z.of_nat (length message_) ->
  let frame := Codec.store_checksum message_ message_size_ in
  let bytes := take (Z.to_nat message_size_) frame in
  let ok := fst (WriteFile X hComm_ bytes (env w)) in
  exists w',
    write_message X hComm_ message_ message_size_ activity w = Ret (ok, frame) w'
    /\ frame !! Z.to_nat (message_size_ - 1)
       = Some (Codec.to_uchar (Codec.checksum message_ message_size_))
    /\ bytes !! Z.to_nat (message_size_ - 1)
       = Some (Codec.to_uchar (Codec.checksum message_ message_size_))
    /\ (forall i, i ≠ Z.to_nat (message_size_ - 1) -> frame !! i = message_ !! i)
    /\ env w' = snd (WriteFile X hComm_ bytes (env w))
    /\ trace w' = trace w ++ ObsWriteFile hComm_ bytes ok ::
         (if String.eqb activity "NONE" then []
          else if ok then [ObsLog Info (activity +:+ " was Successful.")]
               else [ObsLog Error ("Error " +:+ activity)]).
Proof.
  intros Hsize frame bytes ok.
  assert (Hlast : frame !! Z.to_nat (message_size_ - 1)
                  = Some (Codec.to_uchar (Codec.checksum message_ message_size_))).
  { unfold frame, Codec.store_checksum. apply list_lookup_insert_eq. lia. }
  unfold write_message.
  replace ((1 <=? message_size_) && (message_size_ <=? Z.of_nat (length message_)))
    with true by (symmetry; apply andb_true_intro; split; apply Z.leb_le; lia).
  cbn [negb]. fold frame. fold bytes.
  rewrite (bind_ret _ _ _ _ _ (extern_run _ _ w)). fold ok.
  destruct ok eqn:Hok; cbn [negb]; destruct (String.eqb activity "NONE") eqn:Hact;
    cbn [negb when]; eexists; (split; [reflexivity|]);
    (split; [exact Hlast|]);
    (split; [unfold bytes; rewrite lookup_take_lt by lia; exact Hlast|]);
    (split; [intros i Hi; unfold frame, Codec.store_checksum;
             apply list_lookup_insert_ne; congruence|]);
    cbn [env trace]; (split; [reflexivity|]);
    rewrite <- ?app_assoc; reflexivity.
Qed.

(** What a call leaves behind when all it does is write one log line. *)
Lemma logged_only (lvl : Severity) (msg : string) {A : Type} (a : A) w :
  (LOG lvl msg ≫= fun _ => mret a) w
  = Ret a {| trace := trace w ++ [ObsLog lvl msg]; env := env w |}.
Proof. reflexivity. Qed.

Lemma with_enabled_same st : with_enabled (enabled st) st = st.
Proof. destruct st; reflexivity. Qed.

(** C4 (as amended): on a Stimulator whose enabled flag is false, each of
    [set_amp], [write_pw], [begin] and [update] only writes its error line
    to the log: the Stimulator and the environment are left as they were
    (no frame is sent, nothing is read, the scheduler is not called) and
    the call returns normally.  [begin] and [update] return [false];
    [set_amp] and [write_pw] are declared [void] and return no value. *)
Theorem disabled_rejects_operations st (channel_ : Channel) (v : Z) (fuel : nat) w :
  enabled st = false ->
  let logged msg := {| trace := trace w ++ [ObsLog Error msg]; env := env w |} in
  set_amp X st channel_ v w
    = Ret (tt, st) (logged "Stimulator has not yet been enabled. Not writing amplitude")
  /\ write_pw X st channel_ v w
    = Ret (tt, st) (logged "Stimulator has not yet been enabled. Not writing pulsewidth")
  /\ begin X st w
    = Ret (false, st)
          (logged "Stimulator has not yet been opened. Not starting the stimulator")
  /\ update X fuel st w
    = Ret (false, st) (logged "Stimulator has not yet been enabled. Not updating")
  /\ returned tt = VVoid
  /\ returned false = VBool false.
Proof.
  intros Hoff logged.
  unfold set_amp, write_pw, begin, update, is_enabled. rewrite Hoff.
  repeat split; apply logged_only.
Qed.

(** C9: [disable] on a Stimulator whose enabled flag is false only writes
    one informational line to the log: the environment is left as it was
    (no frame is sent, the handle is not closed, the scheduler is not
    called), and the Stimulator, with its scheduler and handle, is unchanged
    and still disabled. *)
Theorem disable_never_enabled st w :
  enabled st = false ->
  disable X st w
  = Ret (tt, st)
        {| trace := trace w ++ [ObsLog Info "Stimulator has not been enabled yet."];
           env := env w |}.
Proof.
  intros Hoff. unfold disable, is_enabled. rewrite Hoff.
  assert (Hst : with_enabled false st = st)
    by (rewrite <- Hoff at 1; apply with_enabled_same).
  cbv [mbind M_bind LOG observe mret M_ret]. rewrite Hst. reflexivity.
Qed.

Lemma update_first_find (name_ : string) (set : Channel -> Channel) (cs : list Channel) :
  update_first name_ set cs
  = (fun ic => <[fst ic := set (snd ic)]> cs)
      <$> list_find (fun c => get_channel_name c = name_) cs.
Proof.
  induction cs as [|c cs IH]; [reflexivity|].
  cbn [update_first list_find]. unfold list_find in IH |- *.
  destruct (String.eqb_spec (get_channel_name c) name_) as [Heq|Hne].
  - rewrite decide_True by exact Heq. reflexivity.
  - rewrite decide_False by exact Hne. rewrite IH.
    match goal with |- context [fmap _ ?o] => destruct o as [[i c']|] end; reflexivity.
Qed.

(** C10: [update_max_amp] and [update_max_pw] look for the first channel of
    the Stimulator whose name equals the name of the argument channel.  When
    there is one, at index [i], the channel list is changed at index [i]
    only, that channel keeps all its fields but the maximum amplitude (the
    maximum pulse width), every other member of the Stimulator is as before
    and nothing is logged or sent.  When there is none, the Stimulator is
    unchanged and one error line is logged. *)
Theorem update_max_first_match_only st (channel_ : Channel) (v : Z) w :
  match list_find (fun c => channel_name c = channel_name channel_) (channels st) with
  | Some (i, c) =>
      update_max_amp st channel_ v w
      = Ret (tt, with_channels
                   (<[i := {| channel_name := channel_name c;
                              board_channel := board_channel c;
                              max_amplitude := v;
                              max_pulse_width := max_pulse_width c;
                              ip_delay := ip_delay c; aspect := aspect c;
                              an_ca := an_ca c |}]> (channels st)) st) w
      /\ update_max_pw st channel_ v w
      = Ret (tt, with_channels
                   (<[i := {| channel_name := channel_name c;
                              board_channel := board_channel c;
                              max_amplitude := max_amplitude c;
                              max_pulse_width := v;
                              ip_delay := ip_delay c; aspect := aspect c;
                              an_ca := an_ca c |}]> (channels st)) st) w
  | None =>
      let logged :=
        {| trace := trace w ++ [ObsLog Error "Did not find the correct channel to update"];
           env := env w |} in
      update_max_amp st channel_ v w = Ret (tt, st) logged
      /\ update_max_pw st channel_ v w = Ret (tt, st) logged
  end.
Proof.
  unfold update_max_amp, update_max_pw. rewrite !update_first_find.
  unfold get_channel_name.
  destruct (list_find _ (channels st)) as [[i c]|]; cbn [fmap option_fmap option_map fst snd];
    split; reflexivity.
Qed.

(** C1 (as amended): on an enabled Stimulator, [create_scheduler] sends the
    create-scheduler request, waits for the reply, and, when the reply
    carries at least one byte, stores its first byte as the scheduler id
    without looking at its value, so that [get_id] returns that byte
    afterwards; the value returned is the outcome of sending the request,
    whatever the reply was. *)
Theorem create_scheduler_stores_reply_id st (sync_msg : Z) (frequency_ : Frequency) w
    (id : Z) (rest : list Z) :
  enabled st = true ->
  let duration := if freq_positive frequency_ then freq_period_ms frequency_ else 50 in
  let sent := Scheduler_create_scheduler X (hComm st) sync_msg duration
                (delay_time st) (scheduler st) (env w) in
  let success := fst (fst (fst sent)) in
  let h := snd (fst (fst sent)) in
  let got := wait_for_message X h (inc_messages st) (snd sent) in
  get_data (fst (fst got)) = id :: rest ->
  exists st' w',
    create_scheduler X st sync_msg frequency_ w = Ret (success, st') w'
    /\ get_id (scheduler st') = id
    /\ env w' = snd got
    /\ trace w' = trace w ++
         [ObsSchedCreate (hComm st) sync_msg duration (delay_time st) success;
          ObsWaitForMessage h (fst (fst got));
          ObsCout (Codec.print_as_hex id); ObsCout endl].
Proof.
  intros Hon duration sent success h got Hreply.
  unfold create_scheduler, is_enabled. rewrite Hon. fold duration.
  rewrite (bind_ret _ _ _ _ _ (extern_run _ _ w)). cbn [env trace]. fold sent.
  cbn [hComm with_scheduler with_hComm inc_messages].
  fold h.
  match goal with
  | |- context [mbind ?f (extern ?rsp ?ob) ?w0] =>
      rewrite (bind_ret (extern rsp ob) f w0 _ _ (extern_run rsp ob w0))
  end.
  cbn [env trace]. fold got.
  cbn [fst snd]. rewrite Hreply.
  eexists _, _. split; [reflexivity|].
  cbn [scheduler with_scheduler with_inc_messages set_id get_id m_id env trace].
  repeat split. rewrite <- !app_assoc. reflexivity.
Qed.

(** The loop of [add_events], on an enabled Stimulator. *)
Lemma add_events_loop_run (channels_ : list Channel) (event_type : Z) :
  forall st w, enabled st = true ->
  exists (ok : bool) (j : nat) st' w',
    add_events_loop X st channels_ event_type w = Ret (ok, st') w'
    /\ (ok = true -> j = length channels_)
    /\ (ok = false -> (j < length channels_)%nat)
    /\ trace w' = trace w
         ++ map (fun c => ObsSchedAddEvent c (delay_time st) event_type true)
                (take j channels_)
         ++ (if ok then []
             else match channels_ !! j with
                  | Some c => [ObsSchedAddEvent c (delay_time st) event_type false]
                  | None => []
                  end)
    /\ st' = with_scheduler (scheduler st') st
    /\ (scheduler st', env w')
       = after_add_events X (delay_time st) event_type
           (take (if ok then j else S j) channels_) (scheduler st, env w).
Proof.
  induction channels_ as [|c cs IH]; intros st w Hon.
  - exists true, 0%nat, st, w. cbn. rewrite app_nil_r.
    repeat split; try discriminate; destruct st, w; reflexivity.
  - cbn [add_events_loop]. unfold add_event, is_enabled. rewrite Hon.
    set (r := Scheduler_add_event X c (delay_time st) event_type (scheduler st) (env w)).
    set (w1 := {| trace := trace w ++ [ObsSchedAddEvent c (delay_time st) event_type (fst (fst r))];
                  env := snd r |}).
    set (st1 := with_scheduler (snd (fst r)) st).
    assert (Hrun : forall k : bool * Stimulator -> M (bool * Stimulator),
      ((extern (Scheduler_add_event X c (delay_time st) event_type (scheduler st))
          (fun r0 => ObsSchedAddEvent c (delay_time st) event_type (fst r0))
        ≫= fun r0 => mret (fst r0, with_scheduler (snd r0) st)) ≫= k) w
      = k (fst (fst r), st1) w1).
    { intros k. unfold mbind, M_bind. rewrite extern_run. reflexivity. }
    rewrite Hrun. cbn beta iota.
    destruct (fst (fst r)) eqn:Hok; cbn [negb].
    + destruct (IH st1 w1 Hon) as (ok & j & st' & w' & Hloop & Htrue & Hfalse & Htr & Hst & Hres).
      exists ok, (S j), st', w'. split; [exact Hloop|].
      split; [intros ->; cbn; f_equal; auto|].
      split; [intros ->; cbn; specialize (Hfalse eq_refl); lia|].
      split.
      { rewrite Htr. unfold w1. cbn [trace delay_time with_scheduler st1].
        rewrite <- app_assoc. reflexivity. }
      split.
      { rewrite Hst at 1. unfold st1. destruct st; reflexivity. }
      rewrite Hres. unfold after_add_events.
      destruct ok; cbn [take fold_left]; fold r; reflexivity.
    + exists false, 0%nat, st1, w1. split; [reflexivity|].
      split; [discriminate|]. split; [intros _; cbn; lia|].
      split; [unfold w1; cbn; reflexivity|].
      split; [unfold st1; destruct st; reflexivity|].
      unfold after_add_events. cbn. fold r. reflexivity.
Qed.

(** C7: on an enabled Stimulator, [add_events] calls [add_event] for the
    channels in list order and stops at the first call that fails: [j]
    calls succeed, and either [j] is the whole list and the result is
    [true], or the call for the channel at index [j] fails, no further
    channel is tried and the result is [false].  The scheduler and the
    device are left as the calls made so far left them: nothing is undone. *)
Theorem add_events_stops_at_first_failure st (channels_ : list Channel)
    (event_type : Z) w :
  enabled st = true ->
  exists (ok : bool) (j : nat) st' w',
    add_events X st channels_ event_type w = Ret (ok, st') w'
    /\ (ok = true -> j = length channels_)
    /\ (ok = false -> (j < length channels_)%nat)
    /\ trace w' = trace w
         ++ map (fun c => ObsSchedAddEvent c (delay_time st) event_type true)
                (take j channels_)
         ++ (if ok then []
             else match channels_ !! j with
                  | Some c => [ObsSchedAddEvent c (delay_time st) event_type false]
                  | None => []
                  end)
    /\ st' = with_scheduler (scheduler st') st
    /\ (scheduler st', env w')
       = after_add_events X (delay_time st) event_type
           (take (if ok then j else S j) channels_) (scheduler st, env w).
Proof.
  intros Hon. unfold add_events, is_enabled. rewrite Hon.
  apply add_events_loop_run. exact Hon.
Qed.

Lemma with_arrays_same st :
  with_arrays (amplitudes st) (pulsewidths st) (max_amplitudes st) (max_pulsewidths st) st
  = st.
Proof. destruct st; reflexivity. Qed.

Lemma snapshot_of_done (chans : list Channel) (i : nat) (f : Channel -> Z) (old : list Z) :
  snapshot_of chans i 0 f old = old.
Proof.
  unfold snapshot_of. rewrite take_0, Nat.add_0_r. cbn [map app]. apply take_drop.
Qed.

Lemma snapshot_of_step (chans : list Channel) (i n : nat) (f : Channel -> Z)
    (old : list Z) (c : Channel) :
  chans !! i = Some c -> (i < length old)%nat ->
  snapshot_of chans (S i) n f (<[i := f c]> old) = snapshot_of chans i (S n) f old.
Proof.
  intros Hc Hi. unfold snapshot_of.
  rewrite (take_S_r (<[i := f c]> old) i (f c)) by (apply list_lookup_insert_eq; exact Hi).
  rewrite take_insert_ge by lia.
  rewrite drop_insert_lt by lia.
  rewrite (drop_S chans c i Hc). cbn [take map].
  replace (S i + n)%nat with (i + S n)%nat by lia.
  rewrite <- app_assoc. reflexivity.
Qed.

(** The copying loop of [update], when the indices it uses exist. *)
Lemma snapshot_loop_run (n : nat) :
  forall (i : nat) st,
  (i + n <= length (channels st))%nat ->
  (i + n <= length (amplitudes st))%nat ->
  (i + n <= length (pulsewidths st))%nat ->
  (i + n <= length (max_amplitudes st))%nat ->
  (i + n <= length (max_pulsewidths st))%nat ->
  snapshot_loop X n i st
  = Some (with_arrays
            (snapshot_of (channels st) i n
               (fun c => Scheduler_get_amp X c (scheduler st)) (amplitudes st))
            (snapshot_of (channels st) i n
               (fun c => Scheduler_get_pw X c (scheduler st)) (pulsewidths st))
            (snapshot_of (channels st) i n get_max_amplitude (max_amplitudes st))
            (snapshot_of (channels st) i n get_max_pulse_width (max_pulsewidths st))
            st).
Proof.
  induction n as [|n IH]; intros i st Hc Ha Hp Hma Hmp.
  - cbn [snapshot_loop]. rewrite !snapshot_of_done, with_arrays_same. reflexivity.
  - cbn [snapshot_loop].
    destruct (lookup_lt_is_Some_2 (channels st) i) as [c Hlook]; [lia|].
    rewrite Hlook.
    replace (i <? length (amplitudes st))%nat with true
      by (symmetry; apply Nat.ltb_lt; lia).
    replace (i <? length (pulsewidths st))%nat with true
      by (symmetry; apply Nat.ltb_lt; lia).
    replace (i <? length (max_amplitudes st))%nat with true
      by (symmetry; apply Nat.ltb_lt; lia).
    replace (i <? length (max_pulsewidths st))%nat with true
      by (symmetry; apply Nat.ltb_lt; lia).
    cbn [andb].
    rewrite IH; cbn [channels amplitudes pulsewidths max_amplitudes max_pulsewidths
                     scheduler with_arrays];
      rewrite ?length_insert; try lia.
    rewrite <- (snapshot_of_step (channels st) i n
                  (fun c => Scheduler_get_amp X c (scheduler st))
                  (amplitudes st) c Hlook) by lia.
    rewrite <- (snapshot_of_step (channels st) i n
                  (fun c => Scheduler_get_pw X c (scheduler st))
                  (pulsewidths st) c Hlook) by lia.
    rewrite <- (snapshot_of_step (channels st) i n get_max_amplitude
                  (max_amplitudes st) c Hlook) by lia.
    rewrite <- (snapshot_of_step (channels st) i n get_max_pulse_width
                  (max_pulsewidths st) c Hlook) by lia.
    reflexivity.
Qed.

(** The drain of [read_all] ends at the first read that yields no byte. *)
Lemma read_all_loop_drains (h : HANDLE) (last_ok : bool) (rs : list (bool * Z)) :
  forall (first_pass : bool) (fuel : nat) (t : list Obs) (e e' : Env),
  reads_then_empty X h rs last_ok e e' ->
  (length rs < fuel)%nat ->
  read_all_loop X fuel h first_pass {| trace := t; env := e |}
  = Ret tt {| trace := t ++ drain_obs h first_pass rs last_ok; env := e' |}.
Proof.
  induction rs as [|[ok b] rs IH]; intros first_pass fuel t e e' Hreads Hfuel;
    (destruct fuel as [|fuel]; [cbn in Hfuel; lia|]); cbn [read_all_loop].
  - cbn in Hreads.
    rewrite (bind_ret _ _ _ _ _ (extern_run _ _ _)). cbn [env trace].
    rewrite Hreads. cbn [fst snd].
    destruct last_ok; cbn [negb when read_error drain_obs];
      cbv [mbind M_bind mret M_ret LOG cout observe]; cbn [trace env];
      rewrite <- ?app_assoc; reflexivity.
  - cbn in Hreads. destruct Hreads as (e1 & Hread & Hrest).
    rewrite (bind_ret _ _ _ _ _ (extern_run _ _ _)). cbn [env trace].
    rewrite Hread. cbn [fst snd].
    cbn in Hfuel.
    destruct ok, first_pass; cbn [negb when read_error drain_obs];
      cbv [mbind M_bind mret M_ret LOG cout observe]; cbn [trace env];
      rewrite (IH false fuel _ e1 e' Hrest) by lia;
      rewrite <- ?app_assoc; reflexivity.
Qed.

Lemma drain_obs_quiet (h : HANDLE) (rs : list (bool * Z)) :
  forall first_pass : bool,
  Forall (fun r => fst r = true) rs ->
  Forall (fun o => forall msg, o ≠ ObsLog Error msg) (drain_obs h first_pass rs true).
Proof.
  induction rs as [|[ok b] rs IH]; intros first_pass Hok; cbn [drain_obs read_error].
  - repeat constructor; discriminate.
  - inversion Hok as [|? ? Hb Hrest]; subst. cbn in Hb. subst ok. cbn [read_error app].
    constructor; [discriminate|].
    destruct first_pass; cbn [app]; repeat (constructor; [discriminate|]);
      apply IH; exact Hrest.
Qed.

(** C6 (as amended): on an enabled Stimulator whose scheduler has no more
    events than there are channels and than each of the four arrays holds,
    [update] takes the mutex, copies for each index below the number of
    events the staged amplitude and pulse width of the channel at that index
    and that channel's two maxima into the four arrays at that index (the
    entries from the number of events on are left as they were), releases
    the mutex, calls [Scheduler::update], and then reads the transport one
    byte at a time until a read yields no byte.  That empty read ends the
    drain (no error is logged when the reads succeed), and the value
    returned is the one [Scheduler::update] returned, whatever the drain
    saw. *)
Theorem update_snapshots_delegates_drains st (fuel : nat) w
    (rs : list (bool * Z)) (last_ok : bool) (e' : Env) :
  enabled st = true ->
  let n := get_num_events (scheduler st) in
  (n <= length (channels st))%nat ->
  (n <= length (amplitudes st))%nat ->
  (n <= length (pulsewidths st))%nat ->
  (n <= length (max_amplitudes st))%nat ->
  (n <= length (max_pulsewidths st))%nat ->
  let snap f old := map f (take n (channels st)) ++ drop n old in
  let st1 :=
    with_arrays
      (snap (fun c => Scheduler_get_amp X c (scheduler st)) (amplitudes st))
      (snap (fun c => Scheduler_get_pw X c (scheduler st)) (pulsewidths st))
      (snap get_max_amplitude (max_amplitudes st))
      (snap get_max_pulse_width (max_pulsewidths st))
      st in
  let r := Scheduler_update X (scheduler st) (env w) in
  reads_then_empty X (hComm st) rs last_ok (snd r) e' ->
  (length rs < fuel)%nat ->
  update X fuel st w
  = Ret (fst (fst r), with_scheduler (snd (fst r)) st1)
        {| trace := trace w
             ++ [ObsMutexLock; ObsMutexUnlock; ObsSchedUpdate (fst (fst r))]
             ++ drain_obs (hComm st) true rs last_ok;
           env := e' |}
  /\ (Forall (fun x => fst x = true) rs -> last_ok = true ->
      Forall (fun o => forall msg, o ≠ ObsLog Error msg)
             (drain_obs (hComm st) true rs last_ok)).
Proof.
  intros Hon n Hc Ha Hp Hma Hmp snap st1 r Hreads Hfuel. split.
  - unfold update, is_enabled. rewrite Hon. fold n.
    cbv [mbind M_bind observe]. cbn [trace env].
    rewrite (snapshot_loop_run n 0 st) by (cbn; lia).
    unfold snapshot_of. cbn [take app Nat.add drop]. fold snap. fold st1.
    rewrite extern_run. cbn [trace env]. fold r.
    unfold read_all. cbn [hComm with_scheduler with_arrays st1].
    rewrite (read_all_loop_drains (hComm st) last_ok rs true fuel _ (snd r) e' Hreads Hfuel).
    cbv [mret M_ret]. rewrite <- !app_assoc. reflexivity.
  - intros Hall ->. apply drain_obs_quiet. exact Hall.
Qed.










End DriverFacts.

(** ** The claims on the simulated device *)

Lemma write_message_checksum_then_write_witness :
  exists u,
    write_message Bench.externals 7 [4; 128; 3; 1; 7; 0] 6 "Halting"
      (Bench.world (Bench.with_script [] Bench.device))
    = Ret (true, [4; 128; 3; 1; 7; 112]) u.
Proof.
  destruct (write_message_checksum_then_write Bench.externals 7 [4; 128; 3; 1; 7; 0] 6
              "Halting" (Bench.world (Bench.with_script [] Bench.device)))
    as (u & Hrun & _).
  - simpl. lia.
  - exists u. exact Hrun.
Defined.

(** C1, the scenario of the specification: sync byte 0x7E, a period of
    20 ms, and a reply whose first byte is 0x03. *)
Lemma create_scheduler_stores_reply_id_witness :
  exists st' u,
    create_scheduler Bench.externals Bench.running 126
      {| freq_positive := true; freq_period_ms := 20 |}
      (Bench.world (Bench.replying [3]))
    = Ret (true, st') u
    /\ get_id (scheduler st') = 3.
Proof.
  destruct (create_scheduler_stores_reply_id Bench.externals Bench.running 126
              {| freq_positive := true; freq_period_ms := 20 |}
              (Bench.world (Bench.replying [3])) 3 [] eq_refl eq_refl)
    as (st' & u & Hrun & Hid & _).
  exists st', u. split; [exact Hrun | exact Hid].
Defined.

(** C1 as stated fails: when no reply arrived (the reply carries no byte),
    [create_scheduler] does not report a failure.  It has no test on the
    reply; it reads the first byte of the empty reply, which is outside the
    vector. *)
Lemma create_scheduler_no_reply_is_not_failure :
  get_data (fst (fst (wait_for_message Bench.externals 7 [] (Bench.replying [])))) = []
  /\ create_scheduler Bench.externals Bench.running 126
       {| freq_positive := true; freq_period_ms := 20 |}
       (Bench.world (Bench.replying []))
     = Undef
  /\ ~ (exists st' u,
          create_scheduler Bench.externals Bench.running 126
            {| freq_positive := true; freq_period_ms := 20 |}
            (Bench.world (Bench.replying []))
          = Ret (false, st') u).
Proof.
  split; [reflexivity|]. split; [reflexivity|].
  intros (st' & u & Hrun). discriminate Hrun.
Qed.

Lemma disabled_rejects_operations_witness :
  begin Bench.externals Bench.stim (Bench.world Bench.device)
  = Ret (false, Bench.stim)
        {| trace := [ObsLog Error
                       "Stimulator has not yet been opened. Not starting the stimulator"];
           env := Bench.device |}.
Proof.
  apply (disabled_rejects_operations Bench.externals Bench.stim Bench.quad 30 1
           (Bench.world Bench.device) eq_refl).
Defined.

(** C4 as stated fails: [set_amp] on a disabled Stimulator does not return
    [false]; it is a [void] function and returns no value. *)
Lemma set_amp_disabled_returns_no_false :
  enabled Bench.stim = false
  /\ ~ (exists (x : unit) st' u,
          set_amp Bench.externals Bench.stim Bench.quad 30 (Bench.world Bench.device)
          = Ret (x, st') u
          /\ returned x = VBool false).
Proof.
  split; [reflexivity|].
  intros (x & st' & u & _ & Hfalse). destruct x. discriminate Hfalse.
Qed.

(** C5 on the earlier [fes::Stimulator::enable]: with no device on the port,
    [open_port] fails, and the function still calls [configure_port] and
    [initialize_board] (the [GetCommState] and the channel set-up are
    attempted on the invalid handle); then it ends without returning a
    value. *)
Theorem legacy_enable_goes_on_after_failure :
  Legacy.enable_statements Bench.externals Bench.legacy_stim (Bench.world Bench.absent)
  = Ret (Legacy.with_dcb (with_DCBlength sizeof_DCB Bench.no_dcb)
           (Legacy.with_hComm INVALID_HANDLE_VALUE Bench.legacy_stim))
        {| trace :=
             [ObsCreateFile "\\.\COM5" INVALID_HANDLE_VALUE;
              ObsLog Error "Failed to open StimulatorUECU";
              ObsGetCommState INVALID_HANDLE_VALUE false;
              ObsLog Error "Error getting serial port state";
              ObsSetupChannel Bench.quad INVALID_HANDLE_VALUE 1000 false];
           env := Bench.with_script [] Bench.absent |}
  /\ Legacy.enable Bench.externals Bench.legacy_stim (Bench.world Bench.absent) = Undef
  /\ ~ (exists st' u,
          Legacy.enable Bench.externals Bench.legacy_stim (Bench.world Bench.absent)
          = Ret (false, st') u).
Proof.
  split; [reflexivity|]. split; [reflexivity|].
  intros (st' & u & Hrun). discriminate Hrun.
Qed.

Lemma update_snapshots_delegates_drains_witness :
  exists st' u,
    update Bench.externals 3 Bench.running (Bench.world (Bench.sending [16; 32]))
    = Ret (true, st') u
    /\ amplitudes st' = [30; 0]
    /\ pulsewidths st' = [120; 0]
    /\ max_amplitudes st' = [50; 40]
    /\ max_pulsewidths st' = [250; 200]
    /\ trace u = [ObsMutexLock; ObsMutexUnlock; ObsSchedUpdate true;
                  ObsReadFile 7 true (Some 16); ObsCout "Message: ";
                  ObsCout "0x10"; ObsCout ", ";
                  ObsReadFile 7 true (Some 32); ObsCout "0x20"; ObsCout ", ";
                  ObsReadFile 7 true None; ObsCout endl].
Proof.
  destruct (update_snapshots_delegates_drains Bench.externals Bench.running 3
              (Bench.world (Bench.sending [16; 32]))
              [(true, 16); (true, 32)] true (Bench.sending []) eq_refl)
    as [Hrun _].
  - cbn. lia.
  - cbn. lia.
  - cbn. lia.
  - cbn. lia.
  - cbn. lia.
  - cbn. eexists. split; [reflexivity|]. eexists. split; reflexivity.
  - cbn. lia.
  - eexists _, _. split; [exact Hrun|]. repeat split.
Defined.

Lemma add_events_stops_at_first_failure_witness :
  exists (ok : bool) (j : nat) st' u,
    add_events Bench.externals Bench.running [Bench.quad; Bench.ham; Bench.quad] 3
      (Bench.world (Bench.scripted [true; false]))
    = Ret (ok, st') u
    /\ (ok = false -> (j < 3)%nat).
Proof.
  destruct (add_events_stops_at_first_failure Bench.externals Bench.running
              [Bench.quad; Bench.ham; Bench.quad] 3
              (Bench.world (Bench.scripted [true; false])) eq_refl)
    as (ok & j & st' & u & Hrun & _ & Hlt & _).
  exists ok, j, st', u. split; [exact Hrun | exact Hlt].
Defined.

(** The same run, computed: the second [add_event] fails, the third channel
    is not tried, and the event added by the first call stays. *)
Example add_events_second_fails :
  add_events Bench.externals Bench.running [Bench.quad; Bench.ham; Bench.quad] 3
    (Bench.world (Bench.scripted [true; false]))
  = Ret (false, with_scheduler (Bench.new_event Bench.quad 3 Bench.two_events)
                  Bench.running)
        {| trace := [ObsSchedAddEvent Bench.quad 1000 3 true;
                     ObsSchedAddEvent Bench.ham 1000 3 false];
           env := Bench.scripted [] |}.
Proof. reflexivity. Qed.

Lemma disable_never_enabled_witness :
  disable Bench.externals Bench.stim (Bench.world Bench.absent)
  = Ret (tt, Bench.stim)
        {| trace := [ObsLog Info "Stimulator has not been enabled yet."];
           env := Bench.absent |}.
Proof.
  apply (disable_never_enabled Bench.externals Bench.stim (Bench.world Bench.absent)
           eq_refl).
Defined.

(** C10 on the simulated Stimulator: raising the ceiling of "Ham" changes
    the second channel only; a name that no channel has changes nothing. *)
Example update_max_amp_ham :
  update_max_amp Bench.stim Bench.ham 60 (Bench.world Bench.device)
  = Ret (tt, with_channels [Bench.quad; set_max_amplitude 60 Bench.ham] Bench.stim)
        (Bench.world Bench.device).
Proof. reflexivity. Qed.

Example update_max_pw_unknown_name :
  update_max_pw Bench.stim
    {| channel_name := "Calf"; board_channel := 2; max_amplitude := 0;
       max_pulse_width := 0; ip_delay := 0; aspect := 0; an_ca := 0 |}
    300 (Bench.world Bench.device)
  = Ret (tt, Bench.stim)
        {| trace := [ObsLog Error "Did not find the correct channel to update"];
           env := Bench.device |}.
Proof. reflexivity. Qed.

(** [write_message] when the link refuses the write: the result is [false]
    and the buffer ends in the checksum all the same. *)
Example write_message_refused :
  write_message Bench.externals 7 [4; 128; 3; 1; 7; 0] 6 "Halting"
    (Bench.world Bench.absent)
  = Ret (false, [4; 128; 3; 1; 7; 112])
        {| trace := [ObsWriteFile 7 [4; 128; 3; 1; 7; 112] false;
                     ObsLog Error "Error Halting"];
           env := Bench.absent |}.
Proof. reflexivity. Qed.

(** [mahi::fes::Stimulator::enable] with no device on the port: one step,
    the failed open, and the result [false]. *)
Example enable_without_device :
  enable Bench.externals Bench.stim (Bench.world Bench.absent)
  = Ret (false, with_hComm INVALID_HANDLE_VALUE Bench.stim)
        {| trace := [ObsCreateFile "\\.\COM5" INVALID_HANDLE_VALUE;
                     ObsLog Error "Failed to open StimulatorUECU"];
           env := Bench.absent |}.
Proof. reflexivity. Qed.

(** ... and with a device whose second channel refuses its set-up. *)
Example enable_second_channel_fails :
  enable Bench.externals Bench.stim (Bench.world (Bench.scripted [true; false]))
  = Ret (false, with_dcb (serial_settings (with_DCBlength sizeof_DCB Bench.no_dcb))
                  (with_hComm 7 Bench.stim))
        {| trace := [ObsCreateFile "\\.\COM5" 7;
                     ObsLog Info "Opened StimulatorUECU";
                     ObsGetCommState 7 true;
                     ObsSetCommState 7
                       (serial_settings (with_DCBlength sizeof_DCB Bench.no_dcb)) true;
                     ObsSetCommTimeouts 7 port_timeouts true;
                     ObsSetupChannel Bench.quad 7 1000 true;
                     ObsSetupChannel Bench.ham 7 1000 false];
           env := Bench.scripted [] |}.
Proof. reflexivity. Qed.

(** * Further properties *)

(** ** Codec *)

Lemma hex_digit_one_char (d : Z) :
  exists c, Codec.hex_digit d = String c EmptyString.
Proof.
  unfold Codec.hex_digit.
  destruct d as [|p|p]; [eexists; reflexivity| |eexists; reflexivity].
  do 4 (destruct p as [p|p|]; try (eexists; reflexivity)).
Qed.

Lemma hex_digit_inj (a b : Z) :
  0 <= a < 16 -> 0 <= b < 16 -> Codec.hex_digit a = Codec.hex_digit b -> a = b.
Proof.
  intros Ha Hb.
  assert (Ea : a = 0 \/ a = 1 \/ a = 2 \/ a = 3 \/ a = 4 \/ a = 5 \/ a = 6 \/ a = 7 \/
               a = 8 \/ a = 9 \/ a = 10 \/ a = 11 \/ a = 12 \/ a = 13 \/ a = 14 \/ a = 15)
    by lia.
  assert (Eb : b = 0 \/ b = 1 \/ b = 2 \/ b = 3 \/ b = 4 \/ b = 5 \/ b = 6 \/ b = 7 \/
               b = 8 \/ b = 9 \/ b = 10 \/ b = 11 \/ b = 12 \/ b = 13 \/ b = 14 \/ b = 15)
    by lia.
  repeat (destruct Ea as [->|Ea]); try subst a;
    repeat (destruct Eb as [->|Eb]); try subst b;
    intros H; first [reflexivity | discriminate H].
Qed.

Lemma hex_digit_get (d : Z) :
  0 <= d < 16 ->
  exists c, String.get (Z.to_nat d) "0123456789ABCDEF" = Some c
            /\ Codec.hex_digit d = String c EmptyString.
Proof.
  intros Hd.
  assert (Ed : d = 0 \/ d = 1 \/ d = 2 \/ d = 3 \/ d = 4 \/ d = 5 \/ d = 6 \/ d = 7 \/
               d = 8 \/ d = 9 \/ d = 10 \/ d = 11 \/ d = 12 \/ d = 13 \/ d = 14 \/ d = 15)
    by lia.
  repeat (destruct Ed as [->|Ed]); try subst d; eexists; split; reflexivity.
Qed.

(** X1: for a byte, [print_as_hex] gives four characters: "0x", then the
    hexadecimal digit (0-9, A-F) of the byte divided by 16, then the
    hexadecimal digit of the byte modulo 16; two different bytes never
    print alike. *)
Theorem print_as_hex_injective (a b : Z) :
  0 <= a < 256 -> 0 <= b < 256 ->
  String.length (Codec.print_as_hex a) = 4%nat
  /\ (exists c1 c2,
        String.get (Z.to_nat (a / 16)) "0123456789ABCDEF" = Some c1
        /\ String.get (Z.to_nat (a mod 16)) "0123456789ABCDEF" = Some c2
        /\ Codec.print_as_hex a = String "0" (String "x" (String c1 (String c2 ""))))
  /\ (Codec.print_as_hex a = Codec.print_as_hex b -> a = b).
Proof.
  intros Ha Hb. unfold Codec.print_as_hex.
  assert (0 <= a / 16 < 16)
    by (split; [apply Z.div_pos; lia | apply Z.div_lt_upper_bound; lia]).
  assert (0 <= b / 16 < 16)
    by (split; [apply Z.div_pos; lia | apply Z.div_lt_upper_bound; lia]).
  assert (0 <= a mod 16 < 16) by (apply Z.mod_pos_bound; lia).
  assert (0 <= b mod 16 < 16) by (apply Z.mod_pos_bound; lia).
  destruct (hex_digit_get (a / 16)) as (qa & Hgqa & Hqa); [assumption|].
  destruct (hex_digit_get (a mod 16)) as (ra & Hgra & Hra); [assumption|].
  destruct (hex_digit_one_char (b / 16)) as [qb Hqb].
  destruct (hex_digit_one_char (b mod 16)) as [rb Hrb].
  split; [rewrite Hqa, Hra; reflexivity|]. split.
  - exists qa, ra. rewrite Hqa, Hra. repeat split; assumption.
  - intros Heq.
    assert (Hq : Codec.hex_digit (a / 16) = Codec.hex_digit (b / 16)).
    { rewrite Hqa, Hra, Hqb, Hrb in Heq. cbv [String.append] in Heq.
      rewrite Hqa, Hqb. congruence. }
    assert (Hr : Codec.hex_digit (a mod 16) = Codec.hex_digit (b mod 16)).
    { rewrite Hqa, Hra, Hqb, Hrb in Heq. cbv [String.append] in Heq.
      rewrite Hra, Hrb. congruence. }
    apply hex_digit_inj in Hq; [|assumption..].
    apply hex_digit_inj in Hr; [|assumption..].
    rewrite (Z.div_mod a 16), (Z.div_mod b 16) by lia. rewrite Hq, Hr. reflexivity.
Qed.

Lemma print_as_hex_injective_witness :
  Codec.print_as_hex 171 = "0xAB"%string
  /\ (Codec.print_as_hex 171 = Codec.print_as_hex 10 -> 171 = 10).
Proof.
  split; [reflexivity|].
  apply (print_as_hex_injective 171 10); lia.
Defined.

Lemma lxor_255_byte (r : Z) : 0 <= r < 256 -> Z.lxor r 255 = 255 - r.
Proof.
  intros Hr.
  assert (Hall : List.forallb (fun n => Z.lxor (Z.of_nat n) 255 =? 255 - Z.of_nat n)
                   (List.seq 0 256) = true) by (vm_compute; reflexivity).
  rewrite List.forallb_forall in Hall.
  specialize (Hall (Z.to_nat r)). rewrite Z2Nat.id in Hall by lia.
  apply Z.eqb_eq, Hall, List.in_seq. lia.
Qed.

Lemma lxor_255_mod (x : Z) : Z.lxor x 255 mod 256 = 255 - x mod 256.
Proof.
  assert (Hbits : Z.land (Z.lxor x 255) (Z.ones 8) = Z.lxor (Z.land x (Z.ones 8)) 255).
  { apply Z.bits_inj'. intros n Hn.
    rewrite Z.land_spec, !Z.lxor_spec, Z.land_spec. change 255 with (Z.ones 8).
    destruct (Z.testbit x n), (Z.testbit (Z.ones 8) n); reflexivity. }
  rewrite !Z.land_ones in Hbits by lia. change (2 ^ 8) with 256 in Hbits.
  rewrite Hbits. apply lxor_255_byte, Z.mod_pos_bound. lia.
Qed.

(** X2: the byte that [write_message] stores is 255 minus the folded sum
    taken modulo 256, where the folded sum is the low byte of the sum of
    the summed bytes plus the rest of that sum shifted down by eight bits
    (the carry is folded in once).  On a buffer of bytes the sum is at most
    255 for each summed byte, and when fewer than two bytes are summed over
    (size at most 1) the checksum is 0xFF. *)
Theorem checksum_byte_closed_form (myarray : list Z) (array_size : Z) :
  Forall Codec.is_byte myarray ->
  let csum := fold_left Z.add (take (Z.to_nat (array_size - 1)) myarray) 0 in
  0 <= csum <= 255 * Z.max 0 (array_size - 1)
  /\ Codec.to_uchar (Codec.checksum myarray array_size)
     = 255 - (csum mod 256 + csum / 256) mod 256
  /\ (csum mod 256 + csum / 256 < 256 ->
      Codec.checksum myarray array_size = 255 - (csum mod 256 + csum / 256))
  /\ (array_size <= 1 -> Codec.checksum myarray array_size = 255).
Proof.
  intros Hbytes csum.
  assert (Hsum : 0 <= csum <= 255 * Z.max 0 (array_size - 1)).
  { pose proof (checksum_sum_bound (take (Z.to_nat (array_size - 1)) myarray)
                  (Forall_take _ _ _ Hbytes)) as Hb.
    fold csum in Hb. rewrite length_take in Hb. lia. }
  assert (Hfold : Z.land 255 csum + Z.shiftr csum 8 = csum mod 256 + csum / 256).
  { rewrite Z.land_comm. change 255 with (Z.ones 8).
    rewrite Z.land_ones, Z.shiftr_div_pow2 by lia. reflexivity. }
  split; [exact Hsum|]. unfold Codec.checksum, Codec.to_uchar. fold csum.
  rewrite Hfold. split; [apply lxor_255_mod|]. split.
  - intros Hsmall. apply lxor_255_byte.
    pose proof (Z.mod_pos_bound csum 256). pose proof (Z.div_pos csum 256). lia.
  - intros Hone. assert (csum = 0) by lia.
    replace (csum mod 256 + csum / 256) with 0; [reflexivity|].
    subst csum. rewrite H. reflexivity.
Qed.

Lemma checksum_byte_closed_form_witness :
  Codec.to_uchar (Codec.checksum [255; 255; 1; 0] 4) = 255
  /\ Codec.checksum [255; 255; 1; 0] 4 = 511.
Proof.
  split; [|reflexivity].
  destruct (checksum_byte_closed_form [255; 255; 1; 0] 4) as (_ & Hbyte & _).
  - repeat constructor; unfold Codec.is_byte; lia.
  - exact Hbyte.
Defined.

(** X3: for a non-negative [int], the two bytes of [int_to_twobytes] put
    back together (high byte times 256 plus low byte) give the input modulo
    65536: exactly the input up to 65535, and only the bits above the
    sixteenth are lost beyond. *)
Theorem int_to_twobytes_recombine (n : Z) :
  0 <= n ->
  exists hi lo,
    Codec.int_to_twobytes n = [hi; lo]
    /\ 256 * hi + lo = n mod 65536
    /\ (n <= 65535 -> 256 * hi + lo = n).
Proof.
  intros Hn. eexists _, _. split; [reflexivity|].
  unfold Codec.to_uchar. rewrite Z.quot_div_nonneg, Z.rem_mod_nonneg by lia.
  assert (Hsplit : n mod 65536 = n mod 256 + 256 * ((n / 256) mod 256)).
  { change 65536 with (256 * 256). apply Z.rem_mul_r; lia. }
  rewrite Z.mod_mod by lia.
  split; [lia|]. intros Hsmall. rewrite <- (Z.mod_small n 65536) at 3 by lia. lia.
Qed.

Lemma int_to_twobytes_recombine_witness :
  exists hi lo, Codec.int_to_twobytes 70000 = [hi; lo] /\ 256 * hi + lo = 4464.
Proof.
  destruct (int_to_twobytes_recombine 70000) as (hi & lo & Hsplit & Hval & _); [lia|].
  exists hi, lo. split; [exact Hsplit | exact Hval].
Defined.

(** X4: a negative [int] above -256 does not wrap like a two's-complement
    16-bit value: the division truncates towards zero, so the high byte is
    0 (not 0xFF) and the low byte is the input plus 256. *)
Theorem int_to_twobytes_negative (n : Z) :
  -256 < n < 0 -> Codec.int_to_twobytes n = [0; n + 256].
Proof.
  intros Hn. unfold Codec.int_to_twobytes, Codec.to_uchar. cbn [app].
  assert (Hquot : Z.quot n 256 = 0) by (apply Z.quot_small_iff; lia).
  rewrite Hquot.
  assert (Hrem : Z.rem n 256 = n).
  { rewrite <- (Z.opp_involutive n) at 1. rewrite Z.rem_opp_l by lia.
    rewrite Z.rem_small by lia. lia. }
  rewrite Hrem. f_equal. f_equal.
  symmetry. apply (Z.mod_unique n 256 (-1)); lia.
Qed.

Lemma int_to_twobytes_negative_witness :
  Codec.int_to_twobytes (-1) = [0; 255].
Proof. apply (int_to_twobytes_negative (-1)). lia. Defined.

(** ** The driver, further *)

Ltac run_extern :=
  match goal with
  | |- context [mbind ?f (extern ?rsp ?ob) ?w0] =>
      rewrite (bind_ret (extern rsp ob) f w0 _ _ (extern_run rsp ob w0));
      cbn [env trace]
  end.

Ltac no_close := unfold never_closes; repeat constructor; discriminate.

Section MoreDriverFacts.

Context {Env : Type} (X : @Externals Env).
Implicit Types (w : @World Env) (st : Stimulator).

Lemma never_closes_app (d1 d2 : list Obs) :
  never_closes d1 -> never_closes d2 -> never_closes (d1 ++ d2).
Proof. unfold never_closes. intros. apply Forall_app. split; assumption. Qed.

Lemma enable_throws st w :
  from_bytes_converts X (com_port st) = false ->
  enable X st w = Thrown range_error.
Proof. intros Hconv. unfold enable, open_port. rewrite Hconv. reflexivity. Qed.

Lemma open_port_state st w :
  from_bytes_converts X (com_port st) = true ->
  let h := fst (CreateFileW X ("\\.\" +:+ com_port st) (env w)) in
  exists w' (done : list Obs),
    open_port X st w = Ret (negb (h =? INVALID_HANDLE_VALUE), with_hComm h st) w'
    /\ trace w' = trace w ++ done
    /\ never_closes done.
Proof.
  intros Hconv h. unfold open_port. rewrite Hconv. cbn [negb].
  run_extern. fold h. cbn [hComm with_hComm].
  destruct (h =? INVALID_HANDLE_VALUE); rewrite logged_only; cbn [trace env negb];
    eexists _, _; (split; [reflexivity|]); rewrite <- app_assoc;
    (split; [reflexivity | no_close]).
Qed.

Lemma configure_port_state st w :
  exists (ok : bool) (d : DCB) w' (done : list Obs),
    configure_port X st w = Ret (ok, with_dcb d st) w'
    /\ trace w' = trace w ++ done
    /\ never_closes done
    /\ (ok = true ->
        (exists d0, d = serial_settings d0)
        /\ In (ObsSetCommTimeouts (hComm st) port_timeouts true) done).
Proof.
  unfold configure_port. run_extern.
  cbn [hComm with_dcb dcbSerialParams].
  match goal with |- context [GetCommState X ?h ?d (env w)] =>
    set (got := GetCommState X h d (env w)) end.
  assert (Hdcb : forall d1 d2, with_dcb d1 (with_dcb d2 st) = with_dcb d1 st)
    by (intros; destruct st; reflexivity).
  destruct (fst (fst got)) eqn:Hgot; cbn [negb].
  2:{ rewrite logged_only. cbn [trace env]. rewrite !Hdcb. eexists false, _, _, _.
      split; [reflexivity|]. rewrite <- app_assoc.
      split; [reflexivity|]. split; [no_close | discriminate]. }
  run_extern.
  match goal with |- context [SetCommState X ?h ?d (snd got)] =>
    set (put := SetCommState X h d (snd got)) end.
  destruct (fst put) eqn:Hput; cbn [negb].
  2:{ rewrite logged_only. cbn [trace env]. rewrite !Hdcb. eexists false, _, _, _.
      split; [reflexivity|]. rewrite <- !app_assoc.
      split; [reflexivity|]. split; [no_close | discriminate]. }
  run_extern.
  match goal with |- context [SetCommTimeouts X ?h ?t (snd put)] =>
    set (tmo := SetCommTimeouts X h t (snd put)) end.
  destruct (fst tmo) eqn:Htmo; cbn [negb].
  2:{ rewrite logged_only. cbn [trace env]. rewrite !Hdcb. eexists false, _, _, _.
      split; [reflexivity|]. rewrite <- !app_assoc.
      split; [reflexivity|]. split; [no_close | discriminate]. }
  rewrite !Hdcb. eexists true, _, _, _. split; [reflexivity|].
  cbn [trace env]. rewrite <- !app_assoc.
  split; [reflexivity|]. split; [no_close|]. intros _. split.
  - eexists. reflexivity.
  - cbn. right. right. left. reflexivity.
Qed.

Lemma initialize_board_loop_quiet (h : HANDLE) (delay : Time) (cs : list Channel) :
  forall w, exists (finished : bool) w' (done : list Obs),
    initialize_board_loop X h delay cs w = Ret finished w'
    /\ trace w' = trace w ++ done
    /\ never_closes done.
Proof.
  induction cs as [|c cs IH]; intros w.
  - exists true, w, []. cbn. rewrite app_nil_r.
    split; [destruct w; reflexivity|]. split; [reflexivity | constructor].
  - cbn [initialize_board_loop]. run_extern.
    destruct (fst (Channel_setup_channel X c h delay (env w))); cbn [negb].
    + match goal with |- context [initialize_board_loop X h delay cs ?w1] =>
        destruct (IH w1) as (fin & w' & done & Hrun & Htr & Hquiet) end.
      eexists fin, w', (_ :: done). split; [exact Hrun|]. cbn [trace] in Htr.
      split; [rewrite Htr, <- app_assoc; reflexivity|].
      constructor; [discriminate | exact Hquiet].
    + eexists false, _, [_]. split; [reflexivity|]. split; [reflexivity | no_close].
Qed.

Lemma initialize_board_quiet st w :
  exists (ok : bool) w' (done : list Obs),
    initialize_board X st w = Ret (ok, st) w'
    /\ trace w' = trace w ++ done
    /\ never_closes done.
Proof.
  unfold initialize_board.
  destruct (initialize_board_loop_quiet (hComm st) (delay_time st) (channels st) w)
    as (fin & w1 & done & Hrun & Htr & Hquiet).
  rewrite (bind_ret _ _ _ _ _ Hrun).
  destruct fin; cbn [negb].
  - rewrite logged_only. eexists _, _, _. split; [reflexivity|]. cbn [trace].
    rewrite Htr, <- app_assoc. split; [reflexivity|].
    apply never_closes_app; [exact Hquiet | no_close].
  - exists false, w1, done. split; [reflexivity|]. split; [exact Htr | exact Hquiet].
Qed.

(** The whole of [enable], with the state it leaves. *)
Lemma enable_run_full st w :
  from_bytes_converts X (com_port st) = true ->
  let h := fst (CreateFileW X ("\\.\" +:+ com_port st) (env w)) in
  exists (ok : bool) (d : DCB) w' (done : list Obs),
    enable X st w = Ret (ok, with_enabled ok (with_dcb d (with_hComm h st))) w'
    /\ trace w' = trace w ++ done
    /\ never_closes done
    /\ (ok = true ->
        h ≠ INVALID_HANDLE_VALUE
        /\ (exists d0, d = serial_settings d0)
        /\ In (ObsSetCommTimeouts h port_timeouts true) done).
Proof.
  intros Hconv h. unfold enable.
  destruct (open_port_state st w Hconv) as (w1 & d1 & Hrun1 & Htr1 & Hq1).
  fold h in Hrun1.
  rewrite (bind_ret _ _ _ _ _ Hrun1). cbn beta iota.
  destruct (h =? INVALID_HANDLE_VALUE) eqn:Hh; cbn [negb].
  { exists false, (dcbSerialParams st), w1, d1. split.
    - destruct st; reflexivity.
    - split; [exact Htr1|]. split; [exact Hq1 | discriminate]. }
  destruct (configure_port_state (with_hComm h st) w1)
    as (ok2 & d & w2 & d2 & Hrun2 & Htr2 & Hq2 & Hset).
  rewrite (bind_ret _ _ _ _ _ Hrun2). cbn beta iota.
  destruct ok2; cbn [negb].
  2:{ exists false, d, w2, (d1 ++ d2). split; [reflexivity|].
      split; [rewrite Htr2, Htr1, <- app_assoc; reflexivity|].
      split; [apply never_closes_app; assumption | discriminate]. }
  destruct (initialize_board_quiet (with_dcb d (with_hComm h st)) w2)
    as (ok3 & w3 & d3 & Hrun3 & Htr3 & Hq3).
  rewrite (bind_ret _ _ _ _ _ Hrun3). cbn beta iota.
  exists ok3, d, w3, (d1 ++ d2 ++ d3).
  split; [destruct ok3; reflexivity|].
  split; [rewrite Htr3, Htr2, Htr1, <- !app_assoc; reflexivity|].
  split; [repeat apply never_closes_app; assumption|].
  intros _. destruct (Hset eq_refl) as [Hd Hin]. cbn [hComm with_hComm] in Hin.
  split; [apply Z.eqb_neq; exact Hh|]. split; [exact Hd|].
  apply in_or_app. right. apply in_or_app. left. exact Hin.
Qed.

(** X6: when [enable] returns [true], the Stimulator is marked enabled, it
    holds the handle that [CreateFileW] returned for "\\.\" followed by the
    port name, that handle is valid, the stored serial parameters are 9600
    baud, 8 data bits, one stop bit, no parity and flow control off, the
    time-outs 10/10/10/50/10 were accepted, and the channel list is as it
    was. *)
Theorem enable_success_state st w st' w' :
  enable X st w = Ret (true, st') w' ->
  enabled st' = true
  /\ hComm st' = fst (CreateFileW X ("\\.\" +:+ com_port st) (env w))
  /\ hComm st' ≠ INVALID_HANDLE_VALUE
  /\ BaudRate (dcbSerialParams st') = 9600
  /\ ByteSize (dcbSerialParams st') = 8
  /\ StopBits (dcbSerialParams st') = ONESTOPBIT
  /\ Parity (dcbSerialParams st') = NOPARITY
  /\ fOutX (dcbSerialParams st') = false
  /\ fInX (dcbSerialParams st') = false
  /\ fRtsControl (dcbSerialParams st') = RTS_CONTROL_DISABLE
  /\ fDtrControl (dcbSerialParams st') = DTR_CONTROL_DISABLE
  /\ (exists done, trace w' = trace w ++ done
        /\ In (ObsSetCommTimeouts (hComm st')
                 {| ReadIntervalTimeout := 10; ReadTotalTimeoutConstant := 10;
                    ReadTotalTimeoutMultiplier := 10; WriteTotalTimeoutConstant := 50;
                    WriteTotalTimeoutMultiplier := 10 |} true) done)
  /\ channels st' = channels st.
Proof.
  intros Hrun.
  destruct (from_bytes_converts X (com_port st)) eqn:Hconv;
    [|rewrite (enable_throws st w Hconv) in Hrun; discriminate Hrun].
  destruct (enable_run_full st w Hconv) as (ok & d & w1 & done & Hfull & Htr & _ & Hok).
  rewrite Hfull in Hrun. injection Hrun as Hok' Hst Hw. subst ok st' w1.
  destruct (Hok eq_refl) as (Hvalid & [d0 ->] & Hin).
  cbn [enabled hComm dcbSerialParams channels with_enabled with_dcb with_hComm
       serial_settings BaudRate ByteSize StopBits Parity fOutX fInX fRtsControl
       fDtrControl].
  repeat (split; [first [reflexivity | exact Hvalid]|]).
  split; [|reflexivity]. exists done. split; [exact Htr | exact Hin].
Qed.


(** X8: [disable] on an enabled Stimulator calls [Scheduler::disable],
    closes the handle the Stimulator holds, logs one line and leaves the
    Stimulator disabled; it does not call [halt_scheduler].  A second
    [disable] then
    only logs: the handle is closed once. *)
Theorem disable_closes_once st w :
  enabled st = true ->
  let off := Scheduler_disable X (scheduler st) (env w) in
  let st1 := with_enabled false (with_scheduler (fst off) st) in
  let w1 := {| trace := trace w ++ [ObsSchedDisable; ObsCloseHandle (hComm st);
                                    ObsLog Info "Stimulator Disabled"];
               env := CloseHandle X (hComm st) (snd off) |} in
  disable X st w = Ret (tt, st1) w1
  /\ disable X st1 w1
     = Ret (tt, st1)
           {| trace := trace w1 ++ [ObsLog Info "Stimulator has not been enabled yet."];
              env := env w1 |}.
Proof.
  intros Hon off st1 w1. split.
  - unfold disable, close_stimulator, is_enabled. rewrite Hon.
    cbv [mbind M_bind mret M_ret LOG observe]. rewrite extern_run. cbn [trace env].
    fold off. rewrite extern_run. cbn [trace env fst snd hComm with_scheduler].
    unfold st1, w1. rewrite <- !app_assoc. reflexivity.
  - unfold disable, is_enabled, st1. cbn [enabled with_enabled].
    cbv [mbind M_bind LOG observe mret M_ret]. reflexivity.
Qed.

(** X9: on a Stimulator whose enabled flag is false, [create_scheduler],
    [add_event] and [add_events] return [false] after one error line in the
    log; the scheduler is not called, nothing is sent or read, and the
    Stimulator is unchanged. *)
Theorem disabled_rejects_scheduler_setup st (sync_msg : Z) (frequency_ : Frequency)
    (channel_ : Channel) (channels_ : list Channel) (event_type : Z) w :
  enabled st = false ->
  let logged msg := {| trace := trace w ++ [ObsLog Error msg]; env := env w |} in
  create_scheduler X st sync_msg frequency_ w
    = Ret (false, st)
          (logged "Stimulator has not yet been enabled. Not creating scheduler")
  /\ add_event X st channel_ event_type w
    = Ret (false, st)
          (logged "Stimulator has not yet been enabled. Not adding event to scheduler")
  /\ add_events X st channels_ event_type w
    = Ret (false, st)
          (logged "Stimulator has not yet been enabled. Not adding event to scheduler").
Proof.
  intros Hoff logged.
  unfold create_scheduler, add_event, add_events, is_enabled. rewrite Hoff.
  repeat split; apply logged_only.
Qed.

Lemma with_scheduler_enabled_on st sch :
  enabled st = true -> with_scheduler sch (with_enabled true st) = with_scheduler sch st.
Proof. intros H. destruct st; cbn in *; subst; reflexivity. Qed.

Lemma with_scheduler_same st : with_scheduler (scheduler st) st = st.
Proof. destruct st; reflexivity. Qed.

(** X10: [set_amp], [write_pw], [begin], [halt_scheduler], [add_event] and
    [add_events] always return, and the only member of the Stimulator they
    can change is the scheduler: the channel list, the four arrays, the
    handle, the serial parameters and the enabled flag are as before. *)
Theorem scheduler_operations_frame st (channel_ : Channel) (v : Z)
    (channels_ : list Channel) (event_type : Z) w :
  (exists st' w', set_amp X st channel_ v w = Ret (tt, st') w'
                  /\ st' = with_scheduler (scheduler st') st)
  /\ (exists st' w', write_pw X st channel_ v w = Ret (tt, st') w'
                     /\ st' = with_scheduler (scheduler st') st)
  /\ (exists r st' w', begin X st w = Ret (r, st') w'
                       /\ st' = with_scheduler (scheduler st') st)
  /\ (exists r st' w', halt_scheduler X st w = Ret (r, st') w'
                       /\ st' = with_scheduler (scheduler st') st)
  /\ (exists r st' w', add_event X st channel_ event_type w = Ret (r, st') w'
                       /\ st' = with_scheduler (scheduler st') st)
  /\ (exists r st' w', add_events X st channels_ event_type w = Ret (r, st') w'
                       /\ st' = with_scheduler (scheduler st') st).
Proof.
  assert (Hlog : forall (A : Type) (a : A) msg,
            exists st' w', (LOG Error msg ≫= fun _ => mret (a, st)) w = Ret (a, st') w'
                           /\ st' = with_scheduler (scheduler st') st).
  { intros A a msg. eexists _, _. split; [apply logged_only|].
    symmetry. apply with_scheduler_same. }
  unfold set_amp, write_pw, begin, halt_scheduler, add_event, add_events, is_enabled.
  destruct (enabled st) eqn:Hon.
  - repeat split.
    + run_extern. eexists _, _. split; [reflexivity|]. destruct st; reflexivity.
    + run_extern. eexists _, _. split; [reflexivity|]. destruct st; reflexivity.
    + run_extern. eexists _, _, _. split; [reflexivity|].
      cbn [scheduler with_scheduler with_enabled]. apply with_scheduler_enabled_on, Hon.
    + run_extern. eexists _, _, _. split; [reflexivity|]. destruct st; reflexivity.
    + run_extern. eexists _, _, _. split; [reflexivity|]. destruct st; reflexivity.
    + destruct (add_events_loop_run X channels_ event_type st w Hon)
        as (ok & j & st' & w' & Hrun & _ & _ & _ & Hst & _).
      exists ok, st', w'. split; [exact Hrun | exact Hst].
  - repeat split; try apply Hlog.
    + destruct (Hlog bool false
                  "Stimulator has not yet been opened. Not starting the stimulator")
        as (st' & w' & H1 & H2). exists false, st', w'. split; assumption.
    + run_extern. eexists _, _, _. split; [reflexivity|]. destruct st; reflexivity.
    + destruct (Hlog bool false
                  "Stimulator has not yet been enabled. Not adding event to scheduler")
        as (st' & w' & H1 & H2). exists false, st', w'. split; assumption.
    + destruct (Hlog bool false
                  "Stimulator has not yet been enabled. Not adding event to scheduler")
        as (st' & w' & H1 & H2). exists false, st', w'. split; assumption.
Qed.


Lemma set_amps_loop_run (amplitudes_ : list Z) (rest : list Channel) :
  forall (i : nat) st w,
  enabled st = true ->
  (i + length rest <= length amplitudes_)%nat ->
  exists st' w',
    set_amps_loop X i st rest amplitudes_ w = Ret (tt, st') w'
    /\ trace w' = trace w
         ++ zip_with (fun c a => ObsSchedSetAmp c (to_uint a)) rest (drop i amplitudes_)
    /\ st' = with_scheduler (scheduler st') st.
Proof.
  induction rest as [|c rest IH]; intros i st w Hon Hlen.
  - exists st, w. cbn. rewrite app_nil_r.
    split; [reflexivity|]. split; [reflexivity|]. symmetry. apply with_scheduler_same.
  - cbn [set_amps_loop]. cbn [length] in Hlen.
    destruct (lookup_lt_is_Some_2 amplitudes_ i) as [a Ha]; [lia|]. rewrite Ha.
    unfold set_amp, is_enabled. rewrite Hon.
    set (r := Scheduler_set_amp X c (to_uint a) (scheduler st) (env w)).
    assert (Hrun : forall k : unit * Stimulator -> M (unit * Stimulator),
      ((extern (Scheduler_set_amp X c (to_uint a) (scheduler st))
          (fun _ => ObsSchedSetAmp c (to_uint a))
        ≫= fun sch => mret (tt, with_scheduler sch st)) ≫= k) w
      = k (tt, with_scheduler (fst r) st)
          {| trace := trace w ++ [ObsSchedSetAmp c (to_uint a)]; env := snd r |}).
    { intros k. unfold mbind, M_bind. rewrite extern_run. reflexivity. }
    rewrite Hrun. cbn beta iota.
    destruct (IH (S i) (with_scheduler (fst r) st)
                {| trace := trace w ++ [ObsSchedSetAmp c (to_uint a)]; env := snd r |})
      as (st' & w' & Hloop & Htr & Hst); [exact Hon | lia |].
    exists st', w'. split; [exact Hloop|]. split.
    + rewrite Htr. cbn [trace]. rewrite (drop_S amplitudes_ a i Ha). cbn [zip_with].
      rewrite <- app_assoc. reflexivity.
    + rewrite Hst at 1. destruct st; reflexivity.
Qed.

Lemma set_amps_loop_short (amplitudes_ : list Z) (rest : list Channel) :
  forall (i : nat) st w,
  (i <= length amplitudes_ < i + length rest)%nat ->
  set_amps_loop X i st rest amplitudes_ w = Undef.
Proof.
  induction rest as [|c rest IH]; intros i st w Hlen; cbn [length] in Hlen; [lia|].
  cbn [set_amps_loop]. destruct (amplitudes_ !! i) as [a|] eqn:Ha; [|reflexivity].
  apply lookup_lt_Some in Ha.
  unfold set_amp, is_enabled. destruct (enabled st).
  - unfold mbind, M_bind. rewrite extern_run. cbn beta iota. apply IH. lia.
  - unfold mbind, M_bind. cbn. apply IH. lia.
Qed.

Lemma write_pws_loop_run (pulsewidths_ : list Z) (rest : list Channel) :
  forall (i : nat) st w,
  enabled st = true ->
  (i + length rest <= length pulsewidths_)%nat ->
  exists st' w',
    write_pws_loop X i st rest pulsewidths_ w = Ret (tt, st') w'
    /\ trace w' = trace w
         ++ zip_with (fun c a => ObsSchedWritePw c (to_uint a)) rest (drop i pulsewidths_)
    /\ st' = with_scheduler (scheduler st') st.
Proof.
  induction rest as [|c rest IH]; intros i st w Hon Hlen.
  - exists st, w. cbn. rewrite app_nil_r.
    split; [reflexivity|]. split; [reflexivity|]. symmetry. apply with_scheduler_same.
  - cbn [write_pws_loop]. cbn [length] in Hlen.
    destruct (lookup_lt_is_Some_2 pulsewidths_ i) as [a Ha]; [lia|]. rewrite Ha.
    unfold write_pw, is_enabled. rewrite Hon.
    set (r := Scheduler_write_pw X c (to_uint a) (scheduler st) (env w)).
    assert (Hrun : forall k : unit * Stimulator -> M (unit * Stimulator),
      ((extern (Scheduler_write_pw X c (to_uint a) (scheduler st))
          (fun _ => ObsSchedWritePw c (to_uint a))
        ≫= fun sch => mret (tt, with_scheduler sch st)) ≫= k) w
      = k (tt, with_scheduler (fst r) st)
          {| trace := trace w ++ [ObsSchedWritePw c (to_uint a)]; env := snd r |}).
    { intros k. unfold mbind, M_bind. rewrite extern_run. reflexivity. }
    rewrite Hrun. cbn beta iota.
    destruct (IH (S i) (with_scheduler (fst r) st)
                {| trace := trace w ++ [ObsSchedWritePw c (to_uint a)]; env := snd r |})
      as (st' & w' & Hloop & Htr & Hst); [exact Hon | lia |].
    exists st', w'. split; [exact Hloop|]. split.
    + rewrite Htr. cbn [trace]. rewrite (drop_S pulsewidths_ a i Ha). cbn [zip_with].
      rewrite <- app_assoc. reflexivity.
    + rewrite Hst at 1. destruct st; reflexivity.
Qed.

Lemma write_pws_loop_short (pulsewidths_ : list Z) (rest : list Channel) :
  forall (i : nat) st w,
  (i <= length pulsewidths_ < i + length rest)%nat ->
  write_pws_loop X i st rest pulsewidths_ w = Undef.
Proof.
  induction rest as [|c rest IH]; intros i st w Hlen; cbn [length] in Hlen; [lia|].
  cbn [write_pws_loop]. destruct (pulsewidths_ !! i) as [a|] eqn:Ha; [|reflexivity].
  apply lookup_lt_Some in Ha.
  unfold write_pw, is_enabled. destruct (enabled st).
  - unfold mbind, M_bind. rewrite extern_run. cbn beta iota. apply IH. lia.
  - unfold mbind, M_bind. cbn. apply IH. lia.
Qed.

(** X11: on an enabled Stimulator, [set_amps] and [write_pws] given at
    least as many values as channels call [set_amp] / [write_pw] once per
    channel, in list order, pairing the channel at index [i] with the value
    at index [i] converted to [unsigned int] (a negative value arrives as
    that value plus 2^32); surplus values are ignored, and only the
    scheduler member of the Stimulator can change. *)
Theorem batch_setters_pair_by_index st (channels_ : list Channel) (values : list Z) w :
  enabled st = true ->
  (length channels_ <= length values)%nat ->
  (exists st' w',
     set_amps X st channels_ values w = Ret (tt, st') w'
     /\ trace w' = trace w
          ++ zip_with (fun c a => ObsSchedSetAmp c (a mod 2 ^ 32)) channels_ values
     /\ st' = with_scheduler (scheduler st') st)
  /\ (exists st' w',
        write_pws X st channels_ values w = Ret (tt, st') w'
        /\ trace w' = trace w
             ++ zip_with (fun c a => ObsSchedWritePw c (a mod 2 ^ 32)) channels_ values
        /\ st' = with_scheduler (scheduler st') st).
Proof.
  intros Hon Hlen. split.
  - apply (set_amps_loop_run values channels_ 0 st w Hon). lia.
  - apply (write_pws_loop_run values channels_ 0 st w Hon). lia.
Qed.

(** X12: [set_amps] and [write_pws] given fewer values than channels read
    past the end of the value vector (the loop runs over the channels and
    indexes the values without a check), whether the Stimulator is enabled
    or not. *)
Theorem batch_setters_short_values st (channels_ : list Channel) (values : list Z) w :
  (length values < length channels_)%nat ->
  set_amps X st channels_ values w = Undef
  /\ write_pws X st channels_ values w = Undef.
Proof.
  intros Hlen. split.
  - apply set_amps_loop_short. lia.
  - apply write_pws_loop_short. lia.
Qed.

Lemma snapshot_loop_out_of_range (n : nat) :
  forall (i : nat) st,
  let m := Nat.min (length (channels st))
             (Nat.min (length (amplitudes st))
                (Nat.min (length (pulsewidths st))
                   (Nat.min (length (max_amplitudes st)) (length (max_pulsewidths st))))) in
  (i <= m < i + n)%nat ->
  snapshot_loop X n i st = None.
Proof.
  induction n as [|n IH]; intros i st m Hm; [lia|].
  cbn [snapshot_loop].
  destruct (channels st !! i) as [c|] eqn:Hc; [|reflexivity].
  apply lookup_lt_Some in Hc.
  destruct ((i <? length (amplitudes st))%nat) eqn:H1; [|reflexivity].
  destruct ((i <? length (pulsewidths st))%nat) eqn:H2; [|reflexivity].
  destruct ((i <? length (max_amplitudes st))%nat) eqn:H3; [|reflexivity].
  destruct ((i <? length (max_pulsewidths st))%nat) eqn:H4; [|reflexivity].
  cbn [andb]. apply Nat.ltb_lt in H1, H2, H3, H4.
  apply IH.
  cbn [channels amplitudes pulsewidths max_amplitudes max_pulsewidths with_arrays].
  rewrite !length_insert. unfold m in Hm. lia.
Qed.

(** X13: [update] indexes [channels] and the four arrays with the
    scheduler's event count and no bound check: on an enabled Stimulator
    whose scheduler has more events than there are channels, or than one of
    the arrays holds, the copying loop of [update] reads or writes past the
    end of a vector, so that [update] has undefined behaviour, whatever the
    scheduler and the device answer and however long the drain may run. *)
Theorem update_out_of_range st (fuel : nat) w :
  enabled st = true ->
  let n := get_num_events (scheduler st) in
  (length (channels st) < n \/ length (amplitudes st) < n \/
   length (pulsewidths st) < n \/ length (max_amplitudes st) < n \/
   length (max_pulsewidths st) < n)%nat ->
  snapshot_loop X n 0 st = None
  /\ update X fuel st w = Undef.
Proof.
  intros Hon n Hshort.
  assert (Hloop : snapshot_loop X n 0 st = None)
    by (apply snapshot_loop_out_of_range; cbn zeta; lia).
  split; [exact Hloop|].
  unfold update, is_enabled. rewrite Hon. fold n.
  cbv [mbind M_bind observe]. rewrite Hloop. reflexivity.
Qed.

Lemma read_all_loop_endless (h : HANDLE) :
  (forall e, snd (fst (ReadFile X h e)) ≠ None) ->
  forall (fuel : nat) (first_pass : bool) w,
  read_all_loop X fuel h first_pass w = OutOfFuel.
Proof.
  intros Hbusy. induction fuel as [|fuel IH]; intros first_pass w; [reflexivity|].
  cbn [read_all_loop]. run_extern.
  destruct (snd (fst (ReadFile X h (env w)))) as [byte|] eqn:Hread;
    [|exfalso; exact (Hbusy _ Hread)].
  destruct (fst (fst (ReadFile X h (env w)))), first_pass;
    cbv [when negb mbind M_bind mret M_ret LOG cout observe]; apply IH.
Qed.

(** X14: the drain of [update] has no limit on the bytes it reads: on an
    enabled Stimulator (with the indices of the copying loop in range) and a
    device that has a byte ready at every read, [update] does not return,
    however many rounds it is given. *)
Theorem update_does_not_return_while_bytes_arrive st (fuel : nat) w :
  enabled st = true ->
  let n := get_num_events (scheduler st) in
  (n <= length (channels st))%nat ->
  (n <= length (amplitudes st))%nat ->
  (n <= length (pulsewidths st))%nat ->
  (n <= length (max_amplitudes st))%nat ->
  (n <= length (max_pulsewidths st))%nat ->
  (forall e, snd (fst (ReadFile X (hComm st) e)) ≠ None) ->
  update X fuel st w = OutOfFuel.
Proof.
  intros Hon n Hc Ha Hp Hma Hmp Hbusy. unfold update, is_enabled. rewrite Hon. fold n.
  cbv [mbind M_bind observe]. cbn [trace env].
  rewrite (snapshot_loop_run X n 0 st) by (cbn; lia).
  rewrite extern_run. unfold read_all. cbn [hComm with_scheduler with_arrays].
  rewrite (read_all_loop_endless (hComm st) Hbusy). reflexivity.
Qed.

Lemma legacy_open_port_state (ls : Legacy.Stimulator) w :
  let h := fst (CreateFileW X ("\\.\" +:+ Legacy.com_port ls) (env w)) in
  exists w' (done : list Obs),
    Legacy.open_port X ls w
    = Ret (negb (h =? INVALID_HANDLE_VALUE), Legacy.with_hComm h ls) w'
    /\ trace w' = trace w ++ done.
Proof.
  intros h. unfold Legacy.open_port. run_extern. fold h.
  cbn [Legacy.hComm Legacy.with_hComm].
  destruct (h =? INVALID_HANDLE_VALUE); rewrite logged_only; cbn [trace env negb];
    eexists _, _; (split; [reflexivity|]); rewrite <- app_assoc; reflexivity.
Qed.

Lemma legacy_configure_port_attempted (ls : Legacy.Stimulator) w :
  exists (ok : bool) (d : DCB) w' (got : bool) (done : list Obs),
    Legacy.configure_port X ls w = Ret (ok, Legacy.with_dcb d ls) w'
    /\ trace w' = trace w ++ ObsGetCommState (Legacy.hComm ls) got :: done.
Proof.
  unfold Legacy.configure_port. run_extern.
  cbn [Legacy.hComm Legacy.with_dcb Legacy.dcbSerialParams].
  match goal with |- context [GetCommState X ?h ?d (env w)] =>
    set (got := GetCommState X h d (env w)) end.
  assert (Hdcb : forall d1 d2,
            Legacy.with_dcb d1 (Legacy.with_dcb d2 ls) = Legacy.with_dcb d1 ls)
    by (intros; destruct ls; reflexivity).
  destruct (fst (fst got)) eqn:Hgot; cbn [negb].
  2:{ rewrite logged_only. cbn [trace env]. rewrite !Hdcb. eexists false, _, _, _, _.
      split; [reflexivity|]. rewrite <- app_assoc. reflexivity. }
  run_extern.
  match goal with |- context [SetCommState X ?h ?d (snd got)] =>
    set (put := SetCommState X h d (snd got)) end.
  destruct (fst put) eqn:Hput; cbn [negb].
  2:{ rewrite logged_only. cbn [trace env]. rewrite !Hdcb. eexists false, _, _, _, _.
      split; [reflexivity|]. rewrite <- !app_assoc. reflexivity. }
  run_extern.
  match goal with |- context [SetCommTimeouts X ?h ?t (snd put)] =>
    set (tmo := SetCommTimeouts X h t (snd put)) end.
  destruct (fst tmo) eqn:Htmo; cbn [negb].
  2:{ rewrite logged_only. cbn [trace env]. rewrite !Hdcb. eexists false, _, _, _, _.
      split; [reflexivity|]. rewrite <- !app_assoc. reflexivity. }
  rewrite !Hdcb. eexists true, _, _, _, _. split; [reflexivity|].
  cbn [trace env]. rewrite <- !app_assoc. reflexivity.
Qed.

Lemma initialize_board_loop_first (h : HANDLE) (delay : Time) (c : Channel)
    (cs : list Channel) w :
  exists (finished ok : bool) w' (done : list Obs),
    initialize_board_loop X h delay (c :: cs) w = Ret finished w'
    /\ trace w' = trace w ++ ObsSetupChannel c h delay ok :: done.
Proof.
  cbn [initialize_board_loop]. run_extern.
  destruct (fst (Channel_setup_channel X c h delay (env w))); cbn [negb].
  - match goal with |- context [initialize_board_loop X h delay cs ?w1] =>
      destruct (initialize_board_loop_quiet h delay cs w1)
        as (fin & w' & done & Hrun & Htr & _) end.
    exists fin, true, w', done. split; [exact Hrun|]. cbn [trace] in Htr.
    rewrite Htr, <- app_assoc. reflexivity.
  - eexists false, false, _, []. split; reflexivity.
Qed.

Lemma legacy_initialize_board_attempted (ls : Legacy.Stimulator) w :
  exists (ok : bool) w' (done : list Obs),
    Legacy.initialize_board X ls w = Ret (ok, ls) w'
    /\ trace w' = trace w ++ done
    /\ (forall c cs, Legacy.channels ls = c :: cs ->
        exists r, In (ObsSetupChannel c (Legacy.hComm ls) (Legacy.delay_time ls) r) done).
Proof.
  unfold Legacy.initialize_board.
  destruct (Legacy.channels ls) as [|c cs] eqn:Hcs.
  - cbn [initialize_board_loop]. unfold mbind, M_bind, mret, M_ret. cbn [negb].
    eexists true, _, _. split; [reflexivity|]. split; [reflexivity|]. discriminate.
  - destruct (initialize_board_loop_first (Legacy.hComm ls) (Legacy.delay_time ls) c cs w)
      as (fin & r & w1 & done & Hrun & Htr).
    rewrite (bind_ret _ _ _ _ _ Hrun).
    destruct fin; cbn [negb].
    + rewrite logged_only. eexists true, _, _. split; [reflexivity|]. cbn [trace].
      rewrite Htr, <- app_assoc. split; [reflexivity|].
      intros c' cs' Heq. injection Heq as <- <-. exists r. left. reflexivity.
    + exists false, w1, (ObsSetupChannel c (Legacy.hComm ls) (Legacy.delay_time ls) r :: done).
      split; [reflexivity|]. split; [exact Htr|].
      intros c' cs' Heq. injection Heq as <- <-. exists r. left. reflexivity.
Qed.

(** X15: the earlier [fes::Stimulator::enable] runs its three steps whatever
    the earlier ones answered: the [open] flag it leaves tells only whether
    the port opened, [GetCommState] is always called on the handle obtained
    (valid or not), the first channel, when there is one, is always sent its
    set-up on that handle, and the function never returns a value. *)
Theorem legacy_enable_ignores_failures (ls : Legacy.Stimulator) w :
  let h := fst (CreateFileW X ("\\.\" +:+ Legacy.com_port ls) (env w)) in
  exists ls' w' (done : list Obs),
    Legacy.enable_statements X ls w = Ret ls' w'
    /\ trace w' = trace w ++ done
    /\ Legacy.open ls' = negb (h =? INVALID_HANDLE_VALUE)
    /\ (exists got, In (ObsGetCommState h got) done)
    /\ (forall c cs, Legacy.channels ls = c :: cs ->
        exists r, In (ObsSetupChannel c h (Legacy.delay_time ls) r) done)
    /\ Legacy.enable X ls w = Undef.
Proof.
  intros h.
  destruct (legacy_open_port_state ls w) as (w1 & d1 & Hrun1 & Htr1). fold h in Hrun1.
  set (ls1 := Legacy.with_open (negb (h =? INVALID_HANDLE_VALUE)) (Legacy.with_hComm h ls)).
  destruct (legacy_configure_port_attempted ls1 w1)
    as (ok2 & d & w2 & got & d2 & Hrun2 & Htr2).
  destruct (legacy_initialize_board_attempted (Legacy.with_dcb d ls1) w2)
    as (ok3 & w3 & d3 & Hrun3 & Htr3 & Hsetup).
  assert (Hall : Legacy.enable_statements X ls w = Ret (Legacy.with_dcb d ls1) w3).
  { unfold Legacy.enable_statements.
    rewrite (bind_ret _ _ _ _ _ Hrun1). cbn beta iota. fold ls1.
    rewrite (bind_ret _ _ _ _ _ Hrun2). cbn beta iota.
    rewrite (bind_ret _ _ _ _ _ Hrun3). reflexivity. }
  exists (Legacy.with_dcb d ls1), w3,
    (d1 ++ ObsGetCommState h got :: d2 ++ d3).
  split; [exact Hall|]. split.
  { rewrite Htr3, Htr2, Htr1. cbn [Legacy.hComm Legacy.with_hComm Legacy.with_open ls1].
    rewrite <- !app_assoc. reflexivity. }
  split; [reflexivity|]. split.
  { exists got. apply in_or_app. right. left. reflexivity. }
  split.
  { intros c cs Hcs. destruct (Hsetup c cs Hcs) as [r Hin]. exists r.
    apply in_or_app. right. right. apply in_or_app. right. exact Hin. }
  unfold Legacy.enable. rewrite (bind_ret _ _ _ _ _ Hall). reflexivity.
Qed.

Lemma update_first_commute (name_ : string) (f g : Channel -> Channel)
    (cs : list Channel) :
  (forall c, get_channel_name (f c) = get_channel_name c) ->
  (forall c, get_channel_name (g c) = get_channel_name c) ->
  (forall c, g (f c) = f (g c)) ->
  (update_first name_ f cs ≫= update_first name_ g)
  = (update_first name_ g cs ≫= update_first name_ f)
  /\ (update_first name_ f cs = None <-> update_first name_ g cs = None).
Proof.
  intros Hf Hg Hfg. induction cs as [|c cs [IH1 IH2]]; [split; reflexivity|].
  cbn [update_first].
  destruct (String.eqb (get_channel_name c) name_) eqn:Hname.
  - cbn [mbind option_bind update_first]. rewrite Hf, Hg, Hname, Hfg.
    split; [reflexivity | split; discriminate].
  - destruct (update_first name_ f cs) as [l1|] eqn:H1;
      destruct (update_first name_ g cs) as [l2|] eqn:H2;
      cbn [fmap option_fmap option_map mbind option_bind update_first] in *;
      rewrite ?Hname.
    + rewrite IH1. split; [reflexivity | split; discriminate].
    + exfalso. destruct IH2 as [_ IH2]. discriminate (IH2 eq_refl).
    + exfalso. destruct IH2 as [IH2 _]. discriminate (IH2 eq_refl).
    + split; [reflexivity | split; reflexivity].
Qed.

Lemma update_first_found_again (name_ : string) (f g : Channel -> Channel)
    (cs l1 : list Channel) :
  (forall c, get_channel_name (f c) = get_channel_name c) ->
  update_first name_ f cs = Some l1 ->
  update_first name_ g l1 ≠ None.
Proof.
  intros Hf. revert l1. induction cs as [|c cs IH]; intros l1; [discriminate|].
  cbn [update_first].
  destruct (String.eqb (get_channel_name c) name_) eqn:Hname.
  - intros [= <-]. cbn [update_first]. rewrite Hf, Hname. discriminate.
  - destruct (update_first name_ f cs) as [l|]; [|discriminate].
    intros [= <-]. cbn [update_first]. rewrite Hname.
    specialize (IH l eq_refl).
    destruct (update_first name_ g l); [discriminate | contradiction].
Qed.

(** X16: [update_max_amp] and [update_max_pw] for the same channel commute:
    applied in either order they leave the same Stimulator and the same
    log (both find the same channel, since neither changes a name, or both
    log that they found none). *)
Theorem update_max_amp_pw_commute st (channel_ : Channel) (a p : Z) w :
  (update_max_amp st channel_ a ≫= fun r => update_max_pw (snd r) channel_ p) w
  = (update_max_pw st channel_ p ≫= fun r => update_max_amp (snd r) channel_ a) w.
Proof.
  destruct (update_first_commute (get_channel_name channel_)
              (set_max_amplitude a) (set_max_pulse_width p) (channels st))
    as [Hcomm Hnone]; try reflexivity.
  unfold update_max_amp, update_max_pw.
  destruct (update_first _ (set_max_amplitude a) (channels st)) as [l1|] eqn:H1;
    destruct (update_first _ (set_max_pulse_width p) (channels st)) as [l2|] eqn:H2.
  - cbn [mbind option_bind] in Hcomm.
    cbv [mbind M_bind mret M_ret]. cbn [snd channels with_channels].
    destruct (update_first _ (set_max_pulse_width p) l1) as [l3|] eqn:H3;
      rewrite <- Hcomm.
    + destruct st; reflexivity.
    + exfalso.
      apply (update_first_found_again (get_channel_name channel_)
               (set_max_amplitude a) (set_max_pulse_width p) (channels st) l1);
        [reflexivity | exact H1 | exact H3].
  - exfalso. destruct Hnone as [_ Hn]. discriminate (Hn eq_refl).
  - exfalso. destruct Hnone as [Hn _]. discriminate (Hn eq_refl).
  - cbv [mbind M_bind mret M_ret LOG observe]. cbn [snd channels trace env].
    rewrite H1, H2. reflexivity.
Qed.

(** What [update] returns on an enabled Stimulator whose indices are in
    range, once the device stops sending. *)
Lemma update_enabled_run st (fuel : nat) w (rs : list (bool * Z)) (last_ok : bool)
    (e' : Env) :
  enabled st = true ->
  let n := get_num_events (scheduler st) in
  (n <= length (channels st))%nat ->
  (n <= length (amplitudes st))%nat ->
  (n <= length (pulsewidths st))%nat ->
  (n <= length (max_amplitudes st))%nat ->
  (n <= length (max_pulsewidths st))%nat ->
  reads_then_empty X (hComm st) rs last_ok
    (snd (Scheduler_update X (scheduler st) (env w))) e' ->
  (length rs < fuel)%nat ->
  exists st' w',
    update X fuel st w
    = Ret (fst (fst (Scheduler_update X (scheduler st) (env w))), st') w'
    /\ max_amplitudes st'
       = map get_max_amplitude (take n (channels st)) ++ drop n (max_amplitudes st)
    /\ max_pulsewidths st'
       = map get_max_pulse_width (take n (channels st)) ++ drop n (max_pulsewidths st).
Proof.
  intros Hon n Hc Ha Hp Hma Hmp Hreads Hfuel.
  unfold update, is_enabled. rewrite Hon. fold n.
  cbv [mbind M_bind observe]. cbn [trace env].
  rewrite (snapshot_loop_run X n 0 st) by (cbn; lia).
  unfold snapshot_of. cbn [take app Nat.add drop].
  rewrite extern_run. cbn [trace env scheduler with_arrays].
  unfold read_all. cbn [hComm with_scheduler with_arrays].
  rewrite (read_all_loop_drains X (hComm st) last_ok rs true fuel _ _ e' Hreads Hfuel).
  cbv [mret M_ret]. eexists _, _. split; [reflexivity|]. split; reflexivity.
Qed.

(** X17: a new ceiling set with [update_max_amp] or [update_max_pw] is
    published by the next [update]: when the channel found by name is at an
    index [i] below the number of events, the entry [i] of [max_amplitudes]
    (of [max_pulsewidths]) holds the new value after that [update]. *)
Theorem update_publishes_new_maximum st (channel_ : Channel) (v : Z) (fuel : nat) w
    (i : nat) (c : Channel) (rs : list (bool * Z)) (last_ok : bool) (e' : Env) :
  enabled st = true ->
  list_find (fun c => channel_name c = channel_name channel_) (channels st) = Some (i, c) ->
  let n := get_num_events (scheduler st) in
  (i < n)%nat ->
  (n <= length (channels st))%nat ->
  (n <= length (amplitudes st))%nat ->
  (n <= length (pulsewidths st))%nat ->
  (n <= length (max_amplitudes st))%nat ->
  (n <= length (max_pulsewidths st))%nat ->
  reads_then_empty X (hComm st) rs last_ok
    (snd (Scheduler_update X (scheduler st) (env w))) e' ->
  (length rs < fuel)%nat ->
  (exists st1 r st2 w2,
     update_max_amp st channel_ v w = Ret (tt, st1) w
     /\ update X fuel st1 w = Ret (r, st2) w2
     /\ max_amplitudes st2 !! i = Some v)
  /\ (exists st1 r st2 w2,
        update_max_pw st channel_ v w = Ret (tt, st1) w
        /\ update X fuel st1 w = Ret (r, st2) w2
        /\ max_pulsewidths st2 !! i = Some v).
Proof.
  intros Hon Hfind n Hi Hc Ha Hp Hma Hmp Hreads Hfuel.
  assert (Hpublished : forall (set : Channel -> Channel) (get : Channel -> Z),
    get (set c) = v ->
    (map get (take n (<[i := set c]> (channels st))) ++ drop n (max_amplitudes st)) !! i
      = Some v
    /\ (map get (take n (<[i := set c]> (channels st))) ++ drop n (max_pulsewidths st)) !! i
      = Some v).
  { intros set get Hget.
    assert (Hlook : map get (take n (<[i := set c]> (channels st))) !! i = Some v).
    { rewrite list_lookup_fmap, lookup_take_lt by lia.
      rewrite list_lookup_insert_eq by lia. cbn. rewrite Hget. reflexivity. }
    split; apply lookup_app_l_Some; exact Hlook. }
  unfold update_max_amp, update_max_pw. rewrite !update_first_find.
  unfold get_channel_name. rewrite Hfind. cbn [fmap option_fmap option_map fst snd].
  split.
  - destruct (update_enabled_run
                (with_channels (<[i := set_max_amplitude v c]> (channels st)) st)
                fuel w rs last_ok e') as (st2 & w2 & Hrun & Hmax & _);
      cbn [enabled channels scheduler amplitudes pulsewidths max_amplitudes
           max_pulsewidths hComm with_channels]; rewrite ?length_insert;
      try assumption.
    eexists _, _, st2, w2. split; [reflexivity|]. split; [exact Hrun|].
    rewrite Hmax. cbn [channels scheduler max_amplitudes with_channels]. fold n.
    apply (Hpublished (set_max_amplitude v) get_max_amplitude). reflexivity.
  - destruct (update_enabled_run
                (with_channels (<[i := set_max_pulse_width v c]> (channels st)) st)
                fuel w rs last_ok e') as (st2 & w2 & Hrun & _ & Hmax);
      cbn [enabled channels scheduler amplitudes pulsewidths max_amplitudes
           max_pulsewidths hComm with_channels]; rewrite ?length_insert;
      try assumption.
    eexists _, _, st2, w2. split; [reflexivity|]. split; [exact Hrun|].
    rewrite Hmax. cbn [channels scheduler max_pulsewidths with_channels]. fold n.
    apply (Hpublished (set_max_pulse_width v) get_max_pulse_width). reflexivity.
Qed.

End MoreDriverFacts.

(** ** The further properties on the simulated device *)

Lemma enable_success_state_witness :
  exists st' u,
    enable Bench.externals Bench.stim (Bench.world Bench.device) = Ret (true, st') u
    /\ hComm st' = 7
    /\ BaudRate (dcbSerialParams st') = 9600.
Proof.
  eexists _, _. split; [reflexivity|].
  destruct (enable_success_state Bench.externals Bench.stim (Bench.world Bench.device)
              _ _ eq_refl) as (_ & Hh & _ & Hbaud & _).
  split; [exact Hh | exact Hbaud].
Defined.


Lemma disable_closes_once_witness :
  exists st1 u,
    disable Bench.externals Bench.running (Bench.world Bench.device) = Ret (tt, st1) u
    /\ trace u = [ObsSchedDisable; ObsCloseHandle 7; ObsLog Info "Stimulator Disabled"].
Proof.
  destruct (disable_closes_once Bench.externals Bench.running (Bench.world Bench.device)
              eq_refl) as [Hrun _].
  eexists _, _. split; [exact Hrun | reflexivity].
Defined.

Lemma disabled_rejects_scheduler_setup_witness :
  add_events Bench.externals Bench.stim [Bench.quad; Bench.ham] 3 (Bench.world Bench.device)
  = Ret (false, Bench.stim)
        {| trace := [ObsLog Error
                       "Stimulator has not yet been enabled. Not adding event to scheduler"];
           env := Bench.device |}.
Proof.
  apply (disabled_rejects_scheduler_setup Bench.externals Bench.stim 126
           {| freq_positive := true; freq_period_ms := 20 |} Bench.quad
           [Bench.quad; Bench.ham] 3 (Bench.world Bench.device) eq_refl).
Defined.

Lemma batch_setters_pair_by_index_witness :
  exists st' u,
    set_amps Bench.externals Bench.running [Bench.quad; Bench.ham] [25; -1; 99]
      (Bench.world Bench.device)
    = Ret (tt, st') u
    /\ trace u = [ObsSchedSetAmp Bench.quad 25; ObsSchedSetAmp Bench.ham 4294967295].
Proof.
  destruct (batch_setters_pair_by_index Bench.externals Bench.running
              [Bench.quad; Bench.ham] [25; -1; 99] (Bench.world Bench.device) eq_refl)
    as [(st' & u & Hrun & Htr & _) _].
  - cbn. lia.
  - exists st', u. split; [exact Hrun | exact Htr].
Defined.

Lemma batch_setters_short_values_witness :
  set_amps Bench.externals Bench.running [Bench.quad; Bench.ham] [25]
    (Bench.world Bench.device)
  = Undef.
Proof.
  apply (batch_setters_short_values Bench.externals Bench.running
           [Bench.quad; Bench.ham] [25] (Bench.world Bench.device)).
  cbn. lia.
Defined.

Lemma update_out_of_range_witness :
  update Bench.externals 3 (with_arrays [0] [0] [50] [250] Bench.running)
    (Bench.world Bench.device)
  = Undef.
Proof.
  apply (update_out_of_range Bench.externals (with_arrays [0] [0] [50] [250] Bench.running)
           3 (Bench.world Bench.device) eq_refl).
  cbn. lia.
Defined.

Lemma update_does_not_return_while_bytes_arrive_witness :
  update chatty_externals 1000 Bench.running (Bench.world Bench.device) = OutOfFuel.
Proof.
  apply (update_does_not_return_while_bytes_arrive chatty_externals Bench.running 1000
           (Bench.world Bench.device) eq_refl); cbn; try lia.
  intros e. discriminate.
Defined.

Lemma legacy_enable_ignores_failures_witness :
  exists ls' u (done : list Obs),
    Legacy.enable_statements Bench.externals Bench.legacy_stim (Bench.world Bench.absent)
    = Ret ls' u
    /\ Legacy.open ls' = false
    /\ exists r, In (ObsSetupChannel Bench.quad INVALID_HANDLE_VALUE 1000 r) done.
Proof.
  destruct (legacy_enable_ignores_failures Bench.externals Bench.legacy_stim
              (Bench.world Bench.absent))
    as (ls' & u & done & Hrun & _ & Hopen & _ & Hsetup & _).
  exists ls', u, done. split; [exact Hrun|]. split; [exact Hopen|].
  apply (Hsetup Bench.quad [Bench.ham] eq_refl).
Defined.

Lemma update_publishes_new_maximum_witness :
  exists st1 r st2 u,
    update_max_amp Bench.running Bench.ham 60 (Bench.world Bench.device)
    = Ret (tt, st1) (Bench.world Bench.device)
    /\ update Bench.externals 2 st1 (Bench.world Bench.device) = Ret (r, st2) u
    /\ max_amplitudes st2 !! 1%nat = Some 60.
Proof.
  destruct (update_publishes_new_maximum Bench.externals Bench.running Bench.ham 60 2
              (Bench.world Bench.device) 1 Bench.ham [] true Bench.device eq_refl eq_refl)
    as [Hamp _]; cbn; try lia; try reflexivity.
  exact Hamp.
Defined.

(** C6 as stated fails on enabled Stimulators.  With two events and arrays
    of one entry, [update] writes past the end of the arrays and returns
    nothing.  With one event and two channels (indices in range), [update]
    returns and the second channel's current maximum, 60, is not copied:
    [max_amplitudes] keeps 40 at index 1. *)
Lemma update_not_for_every_enabled_stimulator :
  (enabled (with_arrays [0] [0] [50] [250] Bench.running) = true
   /\ update Bench.externals 3 (with_arrays [0] [0] [50] [250] Bench.running)
        (Bench.world Bench.device)
      = Undef
   /\ ~ (exists r st' u,
           update Bench.externals 3 (with_arrays [0] [0] [50] [250] Bench.running)
             (Bench.world Bench.device)
           = Ret (r, st') u))
  /\ (let st :=
        with_channels [Bench.quad; set_max_amplitude 60 Bench.ham]
          (with_scheduler (Bench.new_event Bench.quad 3 Bench.no_scheduler)
             Bench.running) in
      enabled st = true
      /\ get_max_amplitude <$> channels st !! 1%nat = Some 60
      /\ exists r st' u,
           update Bench.externals 3 st (Bench.world Bench.device) = Ret (r, st') u
           /\ max_amplitudes st' = [50; 40]
           /\ get_max_amplitude <$> channels st' !! 1%nat = Some 60
           /\ max_amplitudes st' !! 1%nat ≠ get_max_amplitude <$> channels st' !! 1%nat).
Proof.
  split.
  - split; [reflexivity|]. split; [reflexivity|].
    intros (r & st' & u & Hrun). discriminate Hrun.
  - cbv zeta. split; [reflexivity|]. split; [reflexivity|].
    eexists _, _, _. split; [vm_compute; reflexivity|]. split; [reflexivity|].
    split; [reflexivity | discriminate].
Qed.

(** [enable] on a port name that the string conversion refuses:
    [std::range_error] leaves the function and nothing was opened. *)
Example enable_port_name_not_converted :
  enable Bench.externals
    {| name := "UECU"; com_port := String (ascii_of_nat 255) "COM5";
       enabled := false; channels := [Bench.quad; Bench.ham];
       scheduler := Bench.no_scheduler; num_events := 2;
       amplitudes := [0; 0]; pulsewidths := [0; 0];
       max_amplitudes := [50; 40]; max_pulsewidths := [250; 200];
       channel_names := ["Quad"; "Ham"]; hComm := 0;
       dcbSerialParams := Bench.no_dcb; delay_time := 1000; inc_messages := [] |}
    (Bench.world Bench.device)
  = Thrown range_error.
Proof. reflexivity. Qed.

